(** * discord-interactions-js: signature gate for interaction webhooks

    A shallow embedding of [src/index.ts]: the verifier [verifyKey] and the
    Express-style middleware built by [verifyKeyMiddleware].

    The JavaScript platform is modelled as follows.
    - A JS string is a sequence of UTF-16 code units ([JSString]).
    - A Node [Buffer] is a sequence of bytes.
    - JS numbers are IEEE 754 binary64 values (Rocq's primitive [float]).
    - Values met by the middleware (what [JSON.parse] returns, what an
      earlier body parser may have left in [req.body]) are JSON data.
    - [throw] / [try] / a rejected promise are a [Completion] (error monad);
      the request, the response, the console and the continuation [next]
      form an explicit [World] threaded through a state monad.
    - Functions of libraries that are not part of the repository
      ([noble-ed25519]'s [verify], [JSON.parse], [JSON.stringify]) are the
      fields of the class [Runtime]. *)

From Stdlib Require Import ZArith NArith List Ascii String Bool Lia.
From Stdlib Require Import PrimFloat FloatOps SpecFloat DecimalString.
From stdpp Require Import base option list strings gmap.

Local Open Scope N_scope.

(* ------------------------------------------------------------------ *)
(** ** Strings and buffers *)

(** A JS string: UTF-16 code units (numbers below 2^16). *)
Definition JSString := list N.

(** A Node Buffer. *)
Definition Buffer := list Byte.byte.

#[global] Instance byte_eq_decision : EqDecision Byte.byte := Byte.byte_eq_dec.

(** An ASCII literal as a JS string. *)
Definition js (s : string) : JSString :=
  map N_of_ascii (list_ascii_of_string s).
Arguments js : simpl never.

(** The byte whose value is [n mod 256]. *)
Definition byte_of_N (n : N) : Byte.byte :=
  match Byte.of_N (n mod 256) with
  | Some b => b
  | None => Byte.x00
  end.

Definition is_high_surrogate (c : N) : bool := (0xD800 <=? c) && (c <? 0xDC00).
Definition is_low_surrogate (c : N) : bool := (0xDC00 <=? c) && (c <? 0xE000).

(** U+FFFD, written for an unpaired surrogate. *)
Definition replacement_bytes : Buffer :=
  [byte_of_N 0xEF; byte_of_N 0xBF; byte_of_N 0xBD].

Definition utf8_2 (c : N) : Buffer :=
  [byte_of_N (N.lor 0xC0 (N.shiftr c 6));
   byte_of_N (N.lor 0x80 (N.land c 0x3F))].

Definition utf8_3 (c : N) : Buffer :=
  [byte_of_N (N.lor 0xE0 (N.shiftr c 12));
   byte_of_N (N.lor 0x80 (N.land (N.shiftr c 6) 0x3F));
   byte_of_N (N.lor 0x80 (N.land c 0x3F))].

Definition utf8_4 (c : N) : Buffer :=
  [byte_of_N (N.lor 0xF0 (N.shiftr c 18));
   byte_of_N (N.lor 0x80 (N.land (N.shiftr c 12) 0x3F));
   byte_of_N (N.lor 0x80 (N.land (N.shiftr c 6) 0x3F));
   byte_of_N (N.lor 0x80 (N.land c 0x3F))].

(** The code point of a surrogate pair. *)
Definition pair_code_point (hi lo : N) : N :=
  0x10000 + N.shiftl (hi - 0xD800) 10 + (lo - 0xDC00).

(** [Buffer.from(s, 'utf-8')]: the UTF-8 encoding of a JS string. *)
Fixpoint Buffer_from_utf8 (s : JSString) : Buffer :=
  match s with
  | [] => []
  | c :: rest =>
      if c <? 0x80 then byte_of_N c :: Buffer_from_utf8 rest
      else if c <? 0x800 then utf8_2 c ++ Buffer_from_utf8 rest
      else if is_high_surrogate c then
        match rest with
        | d :: rest' =>
            if is_low_surrogate d
            then utf8_4 (pair_code_point c d) ++ Buffer_from_utf8 rest'
            else replacement_bytes ++ Buffer_from_utf8 rest
        | [] => replacement_bytes
        end
      else if is_low_surrogate c then replacement_bytes ++ Buffer_from_utf8 rest
      else utf8_3 c ++ Buffer_from_utf8 rest
  end.

(** The UTF-16 code units of a code point. *)
Definition utf16_units (cp : N) : JSString :=
  if cp <? 0x10000 then [cp]
  else [0xD800 + N.shiftr (cp - 0x10000) 10;
        0xDC00 + N.land (cp - 0x10000) 0x3FF].

(** The UTF-8 decoder with replacement of ill-formed sequences: [cp] is the
    code point being assembled, [needed] the number of continuation bytes
    still expected, [lower] and [upper] the range allowed for the next one. *)
Fixpoint utf8_decode (cp : N) (needed : nat) (lower upper : N)
    (bs : Buffer) : JSString :=
  match bs with
  | [] => match needed with O => [] | S _ => [0xFFFD] end
  | b :: rest =>
      let n := Byte.to_N b in
      let lead :=
        if n <=? 0x7F then n :: utf8_decode 0 0 0x80 0xBF rest
        else if (0xC2 <=? n) && (n <=? 0xDF)
        then utf8_decode (N.land n 0x1F) 1 0x80 0xBF rest
        else if (0xE0 <=? n) && (n <=? 0xEF)
        then utf8_decode (N.land n 0xF) 2
               (if n =? 0xE0 then 0xA0 else 0x80)
               (if n =? 0xED then 0x9F else 0xBF) rest
        else if (0xF0 <=? n) && (n <=? 0xF4)
        then utf8_decode (N.land n 0x7) 3
               (if n =? 0xF0 then 0x90 else 0x80)
               (if n =? 0xF4 then 0x8F else 0xBF) rest
        else 0xFFFD :: utf8_decode 0 0 0x80 0xBF rest in
      match needed with
      | O => lead
      | S k =>
          if (lower <=? n) && (n <=? upper) then
            let cp' := N.lor (N.shiftl cp 6) (N.land n 0x3F) in
            match k with
            | O => utf16_units cp' ++ utf8_decode 0 0 0x80 0xBF rest
            | S _ => utf8_decode cp' k 0x80 0xBF rest
            end
          else 0xFFFD :: lead
      end
  end.

(** [buf.toString('utf-8')]. *)
Definition Buffer_toString_utf8 (b : Buffer) : JSString :=
  utf8_decode 0 0 0x80 0xBF b.

(** [Buffer.concat(list)]. *)
Definition Buffer_concat (bufs : list Buffer) : Buffer := concat bufs.

(* ------------------------------------------------------------------ *)
(** ** Values *)

(** JSON data as JS values; an object keeps its properties in order. *)
#[warnings="-register-all"]
Inductive JSValue : Type :=
| JNull
| JBool (b : bool)
| JNumber (x : float)
| JString (s : JSString)
| JArray (items : list JSValue)
| JObject (props : list (JSString * JSValue)).

(** ToBoolean. *)
Definition truthy (v : JSValue) : bool :=
  match v with
  | JNull => false
  | JBool b => b
  | JNumber x => negb (PrimFloat.eqb x 0%float || PrimFloat.is_nan x)
  | JString s => match s with [] => false | _ => true end
  | JArray _ => true
  | JObject _ => true
  end.

(** What [req.body] may hold when it is not [undefined]: a Buffer, or a
    value left by an earlier stage. *)
Inductive BodyValue : Type :=
| BodyBuffer (b : Buffer)
| BodyJS (v : JSValue).

(** ToBoolean of [req.body]; [None] is [undefined], a Buffer is an object. *)
Definition body_truthy (b : option BodyValue) : bool :=
  match b with
  | None => false
  | Some (BodyBuffer _) => true
  | Some (BodyJS v) => truthy v
  end.

(** ToBoolean of a header value; [None] is [undefined]. *)
Definition header_truthy (h : option JSString) : bool :=
  match h with
  | Some (_ :: _) => true
  | _ => false
  end.

(** The first property named [k] of a property list. *)
Fixpoint lookup_prop (k : JSString) (props : list (JSString * JSValue))
    : option JSValue :=
  match props with
  | [] => None
  | (k', v) :: rest => if decide (k' = k) then Some v else lookup_prop k rest
  end.

(* ------------------------------------------------------------------ *)
(** ** The contract constants *)

Module InteractionType.
Definition PING : float := 1%float.
Definition COMMAND : float := 2%float.
End InteractionType.

Module InteractionResponseType.
Definition PONG : float := 1%float.
Definition ACKNOWLEDGE : float := 2%float.
Definition CHANNEL_MESSAGE : float := 3%float.
Definition CHANNEL_MESSAGE_WITH_SOURCE : float := 4%float.
Definition ACKNOWLEDGE_WITH_SOURCE : float := 5%float.
End InteractionResponseType.

Module InteractionResponseFlags.
Definition EPHEMERAL : Z := Z.shiftl 1 6.
End InteractionResponseFlags.

(* ------------------------------------------------------------------ *)
(** ** Errors and the platform *)

Inductive ErrorKind : Type := Error | SyntaxError | TypeError.

Record JSError : Type := mkError { errKind : ErrorKind; errMessage : JSString }.

(** How an evaluation completes: with a value, or by throwing (for an
    async function: a fulfilled or a rejected promise). *)
Inductive Completion (A : Type) : Type :=
| Normal (a : A)
| Throw (e : JSError).
Arguments Normal {A} a.
Arguments Throw {A} e.

(** The library functions the module calls. [edVerify signature message
    publicKey] is [verify] of noble-ed25519: it answers whether the signature
    is a valid Ed25519 signature of the message under the key, and throws on
    material it cannot parse. [JSON_parse] throws a SyntaxError on text that
    is not JSON; [JSON_stringify] is total on JSON data. *)
Class Runtime : Type := {
  edVerify : JSString -> Buffer -> JSString -> Completion bool;
  JSON_parse : JSString -> Completion JSValue;
  JSON_stringify : JSValue -> JSString
}.

(** [v.k], for a name [k] that no built-in prototype defines (such as
    [type]): an own property of an object, [undefined] ([None]) on other
    values, a TypeError on [null]. *)
Definition get_member (v : JSValue) (k : JSString)
    : Completion (option JSValue) :=
  match v with
  | JNull =>
      Throw (mkError TypeError (js "Cannot read properties of null"))
  | JObject props => Normal (lookup_prop k props)
  | _ => Normal None
  end.

(** [x === n] for a number [n]; [x] may be [undefined]. *)
Definition strict_equals_number (x : option JSValue) (n : float) : bool :=
  match x with
  | Some (JNumber y) => PrimFloat.eqb y n
  | _ => false
  end.

(* ------------------------------------------------------------------ *)
(** ** The world of one request *)

Record IncomingMessage : Type := mkRequest {
  headers : gmap string JSString;  (* keyed by lower-cased header name *)
  body : option BodyValue;         (* req.body; None is undefined *)
  pending : list Buffer;           (* chunks the stream will deliver, in order *)
  flowing : bool                   (* a 'data' listener has been attached *)
}.

Record ServerResponse : Type := mkResponse {
  statusCode : Z;
  outHeaders : gmap string JSString;  (* keyed by the name given to setHeader *)
  sent : option JSString              (* the data given to end; None: not ended *)
}.

(** A call of a library function, with its arguments. *)
Inductive Call : Type :=
| CallVerify (signature : JSString) (message : Buffer) (publicKey : JSString)
| CallParse (text : JSString)
| CallStringify (v : JSValue).

Record World : Type := mkWorld {
  req : IncomingMessage;
  res : ServerResponse;
  console : list JSString;    (* lines written by console.warn, oldest first *)
  nextCalls : nat;            (* how many times next() was invoked *)
  calls : list Call;          (* library calls made, oldest first *)
  unhandled : list JSError    (* rejections of promises that nobody awaits *)
}.

Definition with_req (r : IncomingMessage) (w : World) : World :=
  mkWorld r (res w) (console w) (nextCalls w) (calls w) (unhandled w).
Definition with_res (r : ServerResponse) (w : World) : World :=
  mkWorld (req w) r (console w) (nextCalls w) (calls w) (unhandled w).
Definition with_console (c : list JSString) (w : World) : World :=
  mkWorld (req w) (res w) c (nextCalls w) (calls w) (unhandled w).
Definition with_nextCalls (n : nat) (w : World) : World :=
  mkWorld (req w) (res w) (console w) n (calls w) (unhandled w).
Definition with_calls (c : list Call) (w : World) : World :=
  mkWorld (req w) (res w) (console w) (nextCalls w) c (unhandled w).
Definition with_unhandled (u : list JSError) (w : World) : World :=
  mkWorld (req w) (res w) (console w) (nextCalls w) (calls w) u.

(** Computations over the world that may throw. *)
Definition M (A : Type) : Type := World -> Completion A * World.

#[global] Instance M_ret : MRet M := fun A a w => (Normal a, w).

#[global] Instance M_bind : MBind M := fun A B f m w =>
  match m w with
  | (Normal a, w') => f a w'
  | (Throw e, w') => (Throw e, w')
  end.

(** [try { m } catch (e) { h e }]. *)
Definition try_catch {A} (m : M A) (h : JSError -> M A) : M A := fun w =>
  match m w with
  | (Normal a, w') => (Normal a, w')
  | (Throw e, w') => h e w'
  end.

(** The outcome of a pure library call, inside [M]. *)
Definition lift {A} (c : Completion A) : M A := fun w => (c, w).

(** Calling an async function without awaiting its promise: a rejection is
    left unhandled and the caller goes on. *)
Definition detach (m : M unit) : M unit := fun w =>
  match m w with
  | (Normal _, w') => (Normal tt, w')
  | (Throw e, w') => (Normal tt, with_unhandled (unhandled w' ++ [e]) w')
  end.

Definition record_call (c : Call) : M unit := fun w =>
  (Normal tt, with_calls (calls w ++ [c]) w).

(** [req.headers[name]]. *)
Definition get_header (name : string) : M (option JSString) := fun w =>
  (Normal (headers (req w) !! name), w).

(** The [as string] cast of a header value known to be truthy. *)
Definition as_string (h : option JSString) : JSString := default [] h.

Definition get_body : M (option BodyValue) := fun w =>
  (Normal (body (req w)), w).

(** [req.body = v]. *)
Definition set_body (v : BodyValue) : M unit := fun w =>
  let r := req w in
  (Normal tt, with_req (mkRequest (headers r) (Some v) (pending r) (flowing r)) w).

(** [res.statusCode = n]. *)
Definition set_statusCode (n : Z) : M unit := fun w =>
  let r := res w in
  (Normal tt, with_res (mkResponse n (outHeaders r) (sent r)) w).

(** [res.setHeader(name, value)]. *)
Definition res_setHeader (name : string) (value : JSString) : M unit := fun w =>
  let r := res w in
  (Normal tt,
   with_res (mkResponse (statusCode r) (<[name := value]> (outHeaders r)) (sent r)) w).

(** [res.end(data)]. *)
Definition res_end (data : JSString) : M unit := fun w =>
  let r := res w in
  (Normal tt, with_res (mkResponse (statusCode r) (outHeaders r) (Some data)) w).

(** [console.warn(line)]. *)
Definition console_warn (line : JSString) : M unit := fun w =>
  (Normal tt, with_console (console w ++ [line]) w).

(** [next()]. *)
Definition call_next : M unit := fun w =>
  (Normal tt, with_nextCalls (S (nextCalls w)) w).

(** [req.on('data', onData); req.on('end', onEnd)], run until the stream has
    ended: the stream is switched to flowing mode, hands its chunks to the
    'data' listener in arrival order, then fires 'end'. [S] is the state the
    listeners share (here the local array [chunks]). *)
Definition req_on_data_end {S : Type} (onData : S -> Buffer -> S) (init : S)
    (onEnd : S -> M unit) : M unit := fun w =>
  let r := req w in
  onEnd (fold_left onData (pending r) init)
        (with_req (mkRequest (headers r) (body r) [] true) w).

(* ------------------------------------------------------------------ *)
(** ** The program *)

Section Program.
Context `{RT : Runtime}.

(** The three library calls, recorded in the world. *)
Definition call_edVerify (signature : JSString) (message : Buffer)
    (publicKey : JSString) : M bool :=
  record_call (CallVerify signature message publicKey);;
  lift (edVerify signature message publicKey).

Definition call_JSON_parse (text : JSString) : M JSValue :=
  record_call (CallParse text);;
  lift (JSON_parse text).

Definition call_JSON_stringify (v : JSValue) : M JSString :=
  record_call (CallStringify v);;
  mret (JSON_stringify v).

(** [verifyKey(rawBody, signature, timestamp, clientPublicKey)]. *)
Definition verifyKey (rawBody : Buffer) (signature timestamp
    clientPublicKey : JSString) : M bool :=
  try_catch
    (call_edVerify signature
       (Buffer_concat [Buffer_from_utf8 timestamp; rawBody])
       clientPublicKey)
    (fun _ => mret false).

(** The warning of the re-serialisation path. *)
Definition tampered_warning : JSString :=
  js "[discord-interactions]: req.body was tampered with, probably by some other middleware. We recommend disabling middleware for interaction routes so that req.body is a raw buffer.".

(** [onBodyComplete(rawBody)], a closure over the key and the two headers. *)
Definition onBodyComplete (clientPublicKey timestamp signature : JSString)
    (rawBody : Buffer) : M unit :=
  ok ← verifyKey rawBody signature timestamp clientPublicKey;
  if negb ok then
    set_statusCode 401;;
    res_end (js "Invalid signature")
  else
    parsed ← call_JSON_parse (Buffer_toString_utf8 rawBody);
    let body := if truthy parsed then parsed else JObject [] in
    type ← lift (get_member body (js "type"));
    if strict_equals_number type InteractionType.PING then
      res_setHeader "Content-Type" (js "application/json");;
      text ← call_JSON_stringify
                (JObject [(js "type", JNumber InteractionResponseType.PONG)]);
      res_end text
    else
      set_body (BodyJS body);;
      call_next.

(** The 'data' listener: [chunks.push(chunk)]. *)
Definition on_data (chunks : list Buffer) (chunk : Buffer) : list Buffer :=
  chunks ++ [chunk].

(** The 'end' listener. *)
Definition on_end (clientPublicKey timestamp signature : JSString)
    (chunks : list Buffer) : M unit :=
  let rawBody := Buffer_concat chunks in
  detach (onBodyComplete clientPublicKey timestamp signature rawBody).

(** The function returned by [verifyKeyMiddleware(clientPublicKey)], applied
    to the request, the response and the continuation of the world. *)
Definition middleware (clientPublicKey : JSString) : M unit :=
  timestamp ← get_header "x-signature-timestamp";
  signature ← get_header "x-signature-ed25519";
  if negb (header_truthy timestamp) || negb (header_truthy signature) then
    set_statusCode 401;;
    res_end (js "Invalid headers")
  else
    let timestamp := as_string timestamp in
    let signature := as_string signature in
    let onBodyComplete := onBodyComplete clientPublicKey timestamp signature in
    b ← get_body;
    if body_truthy b then
      match b with
      | Some (BodyBuffer buf) => detach (onBodyComplete buf)
      | Some (BodyJS (JString s)) => detach (onBodyComplete (Buffer_from_utf8 s))
      | Some (BodyJS v) =>
          console_warn tampered_warning;;
          text ← call_JSON_stringify v;
          detach (onBodyComplete (Buffer_from_utf8 text))
      | None => mret tt
      end
    else
      req_on_data_end on_data [] (on_end clientPublicKey timestamp signature).

(** [verifyKeyMiddleware(clientPublicKey)]: throws on a missing key. *)
Definition verifyKeyMiddleware (clientPublicKey : JSString)
    : Completion (M unit) :=
  match clientPublicKey with
  | [] => Throw (mkError Error (js "You must specify a Discord client public key"))
  | _ :: _ => Normal (middleware clientPublicKey)
  end.

End Program.

(* ------------------------------------------------------------------ *)
(** ** Vocabulary of the specification *)

(** The signed message of the data model: timestamp bytes, then the raw body
    bytes, nothing in between. *)
Definition signed_message (timestamp : JSString) (rawBody : Buffer) : Buffer :=
  Buffer_from_utf8 timestamp ++ rawBody.

(** A header that is absent or empty. *)
Definition absent_or_empty (h : option JSString) : Prop :=
  h = None \/ h = Some [].

(** The two headers of a request, as the gate reads them. *)
Definition timestamp_header (r : IncomingMessage) : option JSString :=
  headers r !! "x-signature-timestamp".
Definition signature_header (r : IncomingMessage) : option JSString :=
  headers r !! "x-signature-ed25519".

(** Both headers are there and non-empty. *)
Definition headers_present (r : IncomingMessage) : Prop :=
  ~ absent_or_empty (timestamp_header r) /\ ~ absent_or_empty (signature_header r).

(** The [type] discriminator of a payload equals the number [n]. *)
Definition has_type (v : JSValue) (n : float) : bool :=
  match v with
  | JObject props =>
      match lookup_prop (js "type") props with
      | Some (JNumber x) => PrimFloat.eqb x n
      | _ => false
      end
  | _ => false
  end.

(** A response that has been sent with a 4xx status. *)
Definition client_error_response (r : ServerResponse) : Prop :=
  (exists data, sent r = Some data) /\ (400 <= statusCode r < 500)%Z.

(** The same world with other chunks waiting in the request stream. *)
Definition with_pending (chunks : list Buffer) (w : World) : World :=
  let r := req w in
  with_req (mkRequest (headers r) (body r) chunks (flowing r)) w.

(** The world after the call of the Ed25519 library made by [verifyKey]. *)
Definition verify_logged (pk ts sig : JSString) (raw : Buffer) (w : World)
    : World :=
  with_calls (calls w ++ [CallVerify sig (signed_message ts raw) pk]) w.

(** The world after the call of [JSON.parse] made by [onBodyComplete]. *)
Definition parse_logged (pk ts sig : JSString) (raw : Buffer) (w : World)
    : World :=
  let w1 := verify_logged pk ts sig raw w in
  with_calls (calls w1 ++ [CallParse (Buffer_toString_utf8 raw)]) w1.

(** An earlier stage has materialized the body: [req.body] is set (truthy). *)
Definition materialized (r : IncomingMessage) : Prop :=
  body_truthy (body r) = true.

(** The texts handed to [JSON.parse] among the recorded calls. *)
Definition parsed_texts (cs : list Call) : list JSString :=
  flat_map (fun c => match c with CallParse t => [t] | _ => [] end) cs.

(** The request after its stream has been read to the end. *)
Definition drained (r : IncomingMessage) : IncomingMessage :=
  mkRequest (headers r) (body r) [] true.

Section Vocabulary.
Context `{RT : Runtime}.

(** The signature is valid for the message under the key, as the Ed25519
    library judges it. *)
Definition valid_signature (signature : JSString) (message : Buffer)
    (publicKey : JSString) : Prop :=
  edVerify signature message publicKey = Normal true.

(** The raw body the gate acquires for a request. *)
Definition raw_body_of (r : IncomingMessage) : Buffer :=
  if body_truthy (body r) then
    match body r with
    | Some (BodyBuffer buf) => buf
    | Some (BodyJS (JString s)) => Buffer_from_utf8 s
    | Some (BodyJS v) => Buffer_from_utf8 (JSON_stringify v)
    | None => []
    end
  else Buffer_concat (pending r).

(** The world once the raw body has been acquired. *)
Definition after_acquisition (w : World) : World :=
  if body_truthy (body (req w)) then
    match body (req w) with
    | Some (BodyJS (JString _)) => w
    | Some (BodyJS v) =>
        with_calls (calls w ++ [CallStringify v])
          (with_console (console w ++ [tampered_warning]) w)
    | _ => w
    end
  else with_req (drained (req w)) w.

(** The request carries a valid signature of its timestamp and raw body. *)
Definition request_verifies (clientPublicKey : JSString) (r : IncomingMessage)
    : Prop :=
  valid_signature (as_string (signature_header r))
    (signed_message (as_string (timestamp_header r)) (raw_body_of r))
    clientPublicKey.

End Vocabulary.

(* ------------------------------------------------------------------ *)
(** ** A runtime for the examples

    [sample_runtime] answers as the platform does on the inputs the examples
    use. Its verifier throws on a signature or a key that is not hexadecimal
    of the right length and accepts exactly the listed signatures, which are
    Ed25519 signatures made with the key pair of RFC 8032, section 7.1,
    TEST 2. Its serializer covers data whose numbers are integers below 2^53
    and whose strings need no escape. Its parser reads back the listed
    documents and rejects other text. *)

Definition quote : JSString := [34].

Definition digits_of (n : N) : JSString :=
  js (NilEmpty.string_of_uint (N.to_uint n)).

Definition sample_number_text (x : float) : JSString :=
  match Prim2SF x with
  | S754_zero _ => js "0"
  | S754_finite s m e =>
      let sign := if s then js "-" else [] in
      match e with
      | Z0 => sign ++ digits_of (Npos m)
      | Zpos k => sign ++ digits_of (N.shiftl (Npos m) (Npos k))
      | Zneg k =>
          if N.land (Npos m) (N.ones (Npos k)) =? 0
          then sign ++ digits_of (N.shiftr (Npos m) (Npos k))
          else js "null"
      end
  | _ => js "null"
  end.

Fixpoint join (sep : JSString) (parts : list JSString) : JSString :=
  match parts with
  | [] => []
  | [p] => p
  | p :: rest => p ++ sep ++ join sep rest
  end.

Fixpoint sample_stringify (v : JSValue) : JSString :=
  match v with
  | JNull => js "null"
  | JBool true => js "true"
  | JBool false => js "false"
  | JNumber x => sample_number_text x
  | JString s => quote ++ s ++ quote
  | JArray items => js "[" ++ join (js ",") (map sample_stringify items) ++ js "]"
  | JObject props =>
      js "{" ++
      join (js ",")
        (map (fun kv => quote ++ fst kv ++ quote ++ js ":" ++ sample_stringify (snd kv))
             props) ++
      js "}"
  end.

Definition ping_payload : JSValue :=
  JObject [(js "type", JNumber 1%float)].

Definition command_payload : JSValue :=
  JObject [(js "type", JNumber 2%float); (js "id", JString (js "7"))].

Definition sample_documents : list JSValue :=
  [ping_payload; command_payload; JNull; JNumber 0%float; JBool false; JString []].

Definition sample_parse (text : JSString) : Completion JSValue :=
  match List.find (fun v => bool_decide (sample_stringify v = text)) sample_documents with
  | Some v => Normal v
  | None => Throw (mkError SyntaxError (js "Unexpected token in JSON"))
  end.

Definition is_hex_digit (c : N) : bool :=
  ((48 <=? c) && (c <=? 57)) || ((97 <=? c) && (c <=? 102))
  || ((65 <=? c) && (c <=? 70)).

Definition is_hex (len : nat) (s : JSString) : bool :=
  Nat.eqb (length s) len && forallb is_hex_digit s.

Definition sample_public_key : JSString :=
  js "3d4017c3e843895a92b70aa74d1b7ebc9c982ccf2ec4968cc0cd55f12af4660c".

Definition sample_timestamp : JSString := js "1700000000".

Definition sig_ping : JSString :=
  js "f469ecef789749220e905777fb1f6bc03b827ddd6097c3fc0a7924131c221ab14abed319656685a311beeb741a33ee88a5e14858e3aa0c3d1efc66804188b00e".
Definition sig_command : JSString :=
  js "9f1bb588d1b0bc1e409cd3343b341a51cadb2d40ce2763b2836d0bcd27248e713a8ef6af7d5accc7d3028a109de69393ea1967d4aa94c6f8f9163d28a633f50d".
Definition sig_null : JSString :=
  js "1b1c448f27787afb1b9b964397d71480a385c9159444659884db9e1a15f6254b484b36d47641784bd4b63f3dc86601cb66440e22042ed0009c48af60d237160d".
Definition sig_zero : JSString :=
  js "203df5e2224e4beef7e3b0e9f8f3de0c5482daf9b99dcadad7865305146ffa8aa25740ae9c05f1973b94a9cc6cb5453c907ced0bd4a7318f5b762cf83c94c500".
Definition sig_false : JSString :=
  js "14b8e09765f29bf55e3943206d112b26be74b912a01285f2559674f90d76e1e854658e7b40410ad8a42706a22ad207d9114dc422935bb79e898340dbe9ddc104".
Definition sig_empty_string : JSString :=
  js "5c72169b160feb272c5726ffe9736cda7b6029a42ee99aeec5420838449f5a0034e6cefaa9a5a92ed0b054aeb3131a9ddb8aba57bda4d1b47591de3f08678405".
Definition sig_not_json : JSString :=
  js "9d74c17176d06680d29a633ffa462dfeab859e279e382878d94c27da1bdb001263d8584695cfea00bad9fcc8ecfcb08fee69f5456a745f633b7529edae1fee02".

(** The signed pairs: a signature and the text signed after the timestamp. *)
Definition sample_signed : list (JSString * JSString) :=
  [(sig_ping, sample_stringify ping_payload);
   (sig_command, sample_stringify command_payload);
   (sig_null, js "null");
   (sig_zero, js "0");
   (sig_false, js "false");
   (sig_empty_string, quote ++ quote);
   (sig_not_json, js "not json")].

Definition sample_edVerify (signature : JSString) (message : Buffer)
    (publicKey : JSString) : Completion bool :=
  if negb (is_hex 128 signature) || negb (is_hex 64 publicKey) then
    Throw (mkError Error (js "Expected hex string of the right length"))
  else
    Normal
      (bool_decide (publicKey = sample_public_key) &&
       existsb
         (fun entry =>
            bool_decide (signature = fst entry) &&
            bool_decide (message = signed_message sample_timestamp
                                     (Buffer_from_utf8 (snd entry))))
         sample_signed).

#[global] Instance sample_runtime : Runtime := {
  edVerify := sample_edVerify;
  JSON_parse := sample_parse;
  JSON_stringify := sample_stringify
}.

Definition sample_headers (signature : JSString) : gmap string JSString :=
  <["x-signature-ed25519" := signature]>
    (<["x-signature-timestamp" := sample_timestamp]> ∅).

Definition fresh_response : ServerResponse := mkResponse 200 ∅ None.

(** A world in which nothing has happened yet. *)
Definition initial_world (r : IncomingMessage) : World :=
  mkWorld r fresh_response [] 0 [] [].

(** A request whose body an earlier stage left as a Buffer holding [text]. *)
Definition buffered_request (signature text : JSString) : IncomingMessage :=
  mkRequest (sample_headers signature) (Some (BodyBuffer (Buffer_from_utf8 text)))
    [] false.


(** A request without the signature header. *)
Definition unsigned_request : IncomingMessage :=
  mkRequest (<["x-signature-timestamp" := sample_timestamp]> ∅) None
    [Buffer_from_utf8 (sample_stringify ping_payload)] false.

(** The gate of the examples. *)
Definition sample_gate : M unit := middleware sample_public_key.

(** A request whose body is still in the stream, in the given chunks. *)
Definition streamed_request (signature : JSString) (chunks : list Buffer)
    : IncomingMessage :=
  mkRequest (sample_headers signature) None chunks false.

(* ------------------------------------------------------------------ *)
(** ** Further vocabulary *)

(** [s.toWellFormed()]: every unpaired surrogate replaced by U+FFFD. *)
Fixpoint toWellFormed (s : JSString) : JSString :=
  match s with
  | [] => []
  | c :: rest =>
      if is_high_surrogate c then
        match rest with
        | d :: rest' =>
            if is_low_surrogate d then c :: d :: toWellFormed rest'
            else 0xFFFD :: toWellFormed rest
        | [] => [0xFFFD]
        end
      else if is_low_surrogate c then 0xFFFD :: toWellFormed rest
      else c :: toWellFormed rest
  end.

(** [s.isWellFormed()]: no unpaired surrogate. *)
Fixpoint isWellFormed (s : JSString) : bool :=
  match s with
  | [] => true
  | c :: rest =>
      if is_high_surrogate c then
        match rest with
        | d :: rest' => is_low_surrogate d && isWellFormed rest'
        | [] => false
        end
      else negb (is_low_surrogate c) && isWellFormed rest
  end.

(** Every element is a 16-bit code unit. *)
Definition code_units (s : JSString) : Prop := Forall (fun c => c < 0x10000) s.

(** The string does not begin with the second half of a surrogate pair. *)
Definition no_leading_low_surrogate (s : JSString) : Prop :=
  match s with
  | d :: _ => is_low_surrogate d = false
  | [] => True
  end.

(** The arguments of the calls of the Ed25519 library among the recorded
    calls: signature, message, public key. *)
Definition verifications (cs : list Call)
    : list (JSString * Buffer * JSString) :=
  flat_map (fun c => match c with
                     | CallVerify s m k => [(s, m, k)]
                     | _ => []
                     end) cs.

(** A request whose body an earlier stage left as a string. *)
Definition text_request (signature text : JSString) : IncomingMessage :=
  mkRequest (sample_headers signature) (Some (BodyJS (JString text))) [] false.

(** The body of the sample command cut in three chunks. *)
Definition command_chunks : list Buffer :=
  let b := Buffer_from_utf8 (sample_stringify command_payload) in
  [take 5 b; []; drop 5 b].

Example utf8_ascii :
  Buffer_from_utf8 (js "r") = [Byte.x72].
Proof. reflexivity. Qed.

Example utf8_euro :
  Buffer_from_utf8 [0x20AC] = [Byte.xe2; Byte.x82; Byte.xac].
Proof. reflexivity. Qed.

Example utf8_pair :
  Buffer_from_utf8 [0xD83D; 0xDE00] = [Byte.xf0; Byte.x9f; Byte.x98; Byte.x80].
Proof. reflexivity. Qed.

Example utf8_lone_surrogate :
  Buffer_from_utf8 [0xD83D; 0x41] = [Byte.xef; Byte.xbf; Byte.xbd; Byte.x41].
Proof. reflexivity. Qed.

Example utf8_decode_pair :
  Buffer_toString_utf8 [Byte.xf0; Byte.x9f; Byte.x98; Byte.x80; Byte.x41]
  = [0xD83D; 0xDE00; 0x41].
Proof. reflexivity. Qed.

Example utf8_decode_truncated :
  Buffer_toString_utf8 [Byte.xe2; Byte.x82; Byte.x41] = [0xFFFD; 0x41].
Proof. reflexivity. Qed.

Example sample_stringify_ping :
  sample_stringify ping_payload = js "{" ++ quote ++ js "type" ++ quote ++ js ":1}".
Proof. vm_compute. reflexivity. Qed.

(* ------------------------------------------------------------------ *)
(** ** Running the program *)

Ltac unfold_M :=
  unfold call_edVerify, call_JSON_parse, call_JSON_stringify, record_call,
    lift, try_catch, detach, get_header, get_body, set_body, set_statusCode,
    res_setHeader, res_end, console_warn, call_next, req_on_data_end,
    mbind, M_bind, mret, M_ret in *.

Lemma Buffer_concat_pair (a b : Buffer) : Buffer_concat [a; b] = a ++ b.
Proof. unfold Buffer_concat. simpl. now rewrite app_nil_r. Qed.

Lemma header_truthy_present (h : option JSString) :
  ~ absent_or_empty h -> header_truthy h = true.
Proof.
  unfold absent_or_empty. destruct h as [[|c s]|]; simpl; intros H; auto;
    exfalso; apply H; auto.
Qed.

Lemma header_truthy_absent (h : option JSString) :
  absent_or_empty h -> header_truthy h = false.
Proof. intros [-> | ->]; reflexivity. Qed.

Lemma has_type_truthy (v : JSValue) (n : float) :
  has_type v n = true -> truthy v = true.
Proof. destruct v; simpl; intros H; try discriminate; reflexivity. Qed.

Lemma has_type_member (v : JSValue) (n : float) :
  truthy v = true ->
  exists t, get_member v (js "type") = Normal t /\
            strict_equals_number t n = has_type v n.
Proof.
  destruct v; simpl; intros H; try discriminate; eauto.
Qed.

Lemma fold_on_data (chunks acc : list Buffer) :
  fold_left on_data chunks acc = acc ++ chunks.
Proof.
  revert acc. induction chunks as [|c chunks IH]; intros acc; simpl.
  - now rewrite app_nil_r.
  - rewrite IH. unfold on_data. now rewrite <- app_assoc.
Qed.

Section Runs.
Context `{RT : Runtime}.

Lemma verifyKey_run (raw : Buffer) (sig ts pk : JSString) (w : World) :
  verifyKey raw sig ts pk w =
  (Normal match edVerify sig (signed_message ts raw) pk with
          | Normal b => b
          | Throw _ => false
          end,
   verify_logged pk ts sig raw w).
Proof.
  unfold verifyKey, verify_logged. rewrite Buffer_concat_pair.
  unfold_M. fold (signed_message ts raw).
  destruct (edVerify sig (signed_message ts raw) pk); reflexivity.
Qed.

Lemma onBodyComplete_invalid (pk ts sig : JSString) (raw : Buffer) (w : World) :
  ~ valid_signature sig (signed_message ts raw) pk ->
  onBodyComplete pk ts sig raw w =
  (Normal tt,
   let w1 := verify_logged pk ts sig raw w in
   with_res (mkResponse 401 (outHeaders (res w1)) (Some (js "Invalid signature"))) w1).
Proof.
  intros Hbad. unfold onBodyComplete.
  unfold mbind at 1, M_bind at 1. rewrite verifyKey_run.
  unfold valid_signature in Hbad.
  destruct (edVerify sig (signed_message ts raw) pk) as [[|]|e];
    try (exfalso; apply Hbad; reflexivity); reflexivity.
Qed.

Lemma onBodyComplete_parse_error (pk ts sig : JSString) (raw : Buffer)
    (w : World) (e : JSError) :
  valid_signature sig (signed_message ts raw) pk ->
  JSON_parse (Buffer_toString_utf8 raw) = Throw e ->
  onBodyComplete pk ts sig raw w = (Throw e, parse_logged pk ts sig raw w).
Proof.
  intros Hok Hparse. unfold onBodyComplete.
  unfold mbind at 1, M_bind at 1. rewrite verifyKey_run.
  unfold valid_signature in Hok. rewrite Hok. simpl negb. cbv iota.
  unfold_M. rewrite Hparse. reflexivity.
Qed.

Lemma onBodyComplete_ping (pk ts sig : JSString) (raw : Buffer)
    (w : World) (v : JSValue) :
  valid_signature sig (signed_message ts raw) pk ->
  JSON_parse (Buffer_toString_utf8 raw) = Normal v ->
  has_type v InteractionType.PING = true ->
  onBodyComplete pk ts sig raw w =
  (Normal tt,
   let w2 := parse_logged pk ts sig raw w in
   let pong := JObject [(js "type", JNumber InteractionResponseType.PONG)] in
   with_res
     (mkResponse (statusCode (res w2))
        (<["Content-Type" := js "application/json"]> (outHeaders (res w2)))
        (Some (JSON_stringify pong)))
     (with_calls (calls w2 ++ [CallStringify pong]) w2)).
Proof.
  intros Hok Hparse Hping. unfold onBodyComplete.
  unfold mbind at 1, M_bind at 1. rewrite verifyKey_run.
  unfold valid_signature in Hok. rewrite Hok. simpl negb. cbv iota.
  pose proof (has_type_truthy _ _ Hping) as Htruthy.
  destruct (has_type_member v InteractionType.PING Htruthy) as (t & Hget & Heq).
  unfold_M. rewrite Hparse. cbv iota beta. rewrite Htruthy, Hget. cbv iota beta.
  rewrite Heq, Hping. reflexivity.
Qed.

Lemma onBodyComplete_forward (pk ts sig : JSString) (raw : Buffer)
    (w : World) (v : JSValue) :
  valid_signature sig (signed_message ts raw) pk ->
  JSON_parse (Buffer_toString_utf8 raw) = Normal v ->
  has_type (if truthy v then v else JObject []) InteractionType.PING = false ->
  onBodyComplete pk ts sig raw w =
  (Normal tt,
   let w2 := parse_logged pk ts sig raw w in
   let r := req w2 in
   with_nextCalls (S (nextCalls w2))
     (with_req
        (mkRequest (headers r) (Some (BodyJS (if truthy v then v else JObject [])))
           (pending r) (flowing r))
        w2)).
Proof.
  intros Hok Hparse Hother. unfold onBodyComplete.
  unfold mbind at 1, M_bind at 1. rewrite verifyKey_run.
  unfold valid_signature in Hok. rewrite Hok. simpl negb. cbv iota.
  assert (Htruthy : truthy (if truthy v then v else JObject []) = true)
    by (destruct (truthy v) eqn:E; [exact E | reflexivity]).
  destruct (has_type_member _ InteractionType.PING Htruthy) as (t & Hget & Heq).
  unfold_M. rewrite Hparse. cbv iota beta zeta. rewrite Hget. cbv iota beta.
  rewrite Heq, Hother. reflexivity.
Qed.

(** With both headers present the middleware acquires the raw body and hands
    it to [onBodyComplete], whose promise it does not await. *)
Lemma middleware_run (pk : JSString) (w : World) :
  headers_present (req w) ->
  middleware pk w =
  detach
    (onBodyComplete pk (as_string (timestamp_header (req w)))
       (as_string (signature_header (req w))) (raw_body_of (req w)))
    (after_acquisition w).
Proof.
  intros [Hts Hsig]. apply header_truthy_present in Hts, Hsig.
  unfold timestamp_header, signature_header in *.
  unfold middleware, raw_body_of, after_acquisition.
  unfold mbind at 1, M_bind at 1, get_header at 1. cbv iota beta.
  unfold mbind at 1, M_bind at 1, get_header at 1. cbv iota beta.
  rewrite Hts, Hsig. cbn [negb orb].
  unfold mbind at 1, M_bind at 1, get_body at 1. cbv iota beta zeta.
  destruct (body_truthy (body (req w))) eqn:Hbody.
  - destruct (body (req w)) as [[buf|v]|]; try discriminate; try reflexivity.
    destruct v; try reflexivity; simpl in Hbody; discriminate.
  - unfold req_on_data_end, on_end. rewrite fold_on_data. reflexivity.
Qed.

(** Without one of the headers the middleware only writes the rejection. *)
Lemma middleware_missing (pk : JSString) (w : World) :
  absent_or_empty (signature_header (req w)) \/
  absent_or_empty (timestamp_header (req w)) ->
  middleware pk w =
  (Normal tt,
   with_res (mkResponse 401 (outHeaders (res w)) (Some (js "Invalid headers"))) w).
Proof.
  intros Hmissing.
  assert (Hguard :
    negb (header_truthy (timestamp_header (req w))) ||
    negb (header_truthy (signature_header (req w))) = true).
  { destruct Hmissing as [H | H]; apply header_truthy_absent in H; rewrite H;
      cbn [negb]; [apply orb_true_r | reflexivity]. }
  unfold timestamp_header, signature_header in Hguard.
  unfold middleware.
  unfold mbind at 1, M_bind at 1, get_header at 1. cbv iota beta.
  unfold mbind at 1, M_bind at 1, get_header at 1. cbv iota beta.
  rewrite Hguard. unfold_M. reflexivity.
Qed.

End Runs.

(* ------------------------------------------------------------------ *)
(** ** What [onBodyComplete] leaves alone *)

Section Frame.
Context `{RT : Runtime}.

(** [onBodyComplete] never writes to the console, never touches the headers
    or the stream of the request, and its first library call is the
    verification of the signed message. *)
Lemma onBodyComplete_frame (pk ts sig : JSString) (raw : Buffer) (w w' : World)
    (c : Completion unit) :
  onBodyComplete pk ts sig raw w = (c, w') ->
  console w' = console w /\
  headers (req w') = headers (req w) /\
  pending (req w') = pending (req w) /\
  flowing (req w') = flowing (req w) /\
  exists rest,
    calls w' = calls w ++ CallVerify sig (signed_message ts raw) pk :: rest.
Proof.
  unfold onBodyComplete.
  unfold mbind at 1, M_bind at 1. rewrite verifyKey_run.
  destruct (edVerify sig (signed_message ts raw) pk) as [[|]|e]; cbn [negb];
    try (unfold_M; intros H; inversion H; subst; cbn;
         repeat split; try reflexivity; eexists; reflexivity).
  unfold_M.
  destruct (JSON_parse (Buffer_toString_utf8 raw)) as [v|e];
    [|intros H; inversion H; subst; cbn; repeat split; try reflexivity;
      eexists; rewrite <- app_assoc; reflexivity].
  destruct (get_member (if truthy v then v else JObject []) (js "type"))
    as [t|e];
    [|intros H; inversion H; subst; cbn; repeat split; try reflexivity;
      eexists; rewrite <- app_assoc; reflexivity].
  destruct (strict_equals_number t InteractionType.PING);
    intros H; inversion H; subst; cbn;
    repeat split; try reflexivity; eexists;
    rewrite <- ?app_assoc; reflexivity.
Qed.

Lemma detach_frame (pk ts sig : JSString) (raw : Buffer) (w : World) :
  let w' := snd (detach (onBodyComplete pk ts sig raw) w) in
  fst (detach (onBodyComplete pk ts sig raw) w) = Normal tt /\
  console w' = console w /\
  headers (req w') = headers (req w) /\
  pending (req w') = pending (req w) /\
  flowing (req w') = flowing (req w) /\
  exists rest,
    calls w' = calls w ++ CallVerify sig (signed_message ts raw) pk :: rest.
Proof.
  unfold detach.
  destruct (onBodyComplete pk ts sig raw w) as [c w1] eqn:Hrun.
  apply onBodyComplete_frame in Hrun.
  destruct c; cbn; split; try reflexivity; exact Hrun.
Qed.

Lemma verifyKeyMiddleware_Normal (pk : JSString) (mw : M unit) :
  verifyKeyMiddleware pk = Normal mw -> mw = middleware pk.
Proof. destruct pk; simpl; intros H; inversion H; reflexivity. Qed.

Lemma parsed_texts_app (cs ds : list Call) :
  parsed_texts (cs ++ ds) = parsed_texts cs ++ parsed_texts ds.
Proof. unfold parsed_texts. apply flat_map_app. Qed.

Lemma parsed_texts_after_acquisition (w : World) :
  parsed_texts (calls (after_acquisition w)) = parsed_texts (calls w).
Proof.
  unfold after_acquisition.
  destruct (body_truthy (body (req w))); [|reflexivity].
  destruct (body (req w)) as [[buf|v]|]; try reflexivity.
  destruct v; try reflexivity; cbn; rewrite parsed_texts_app; cbn;
    apply app_nil_r.
Qed.

Lemma after_acquisition_keeps (w : World) :
  res (after_acquisition w) = res w /\
  nextCalls (after_acquisition w) = nextCalls w /\
  unhandled (after_acquisition w) = unhandled w /\
  body (req (after_acquisition w)) = body (req w).
Proof.
  unfold after_acquisition.
  destruct (body_truthy (body (req w))); [|repeat split; reflexivity].
  destruct (body (req w)) as [[buf|v]|] eqn:Hb;
    try (repeat split; solve [reflexivity | exact Hb]).
  destruct v; repeat split; solve [reflexivity | exact Hb].
Qed.

End Frame.

(* ------------------------------------------------------------------ *)
(** ** The verifier *)

Section Verifier.
Context `{RT : Runtime}.

(** C1: for every raw body, signature, timestamp and public key, [verifyKey]
    returns [true] if and only if the signature is a valid Ed25519 signature,
    under that key, of the signed message: the UTF-8 bytes of the timestamp
    followed by the raw body bytes, with nothing in between. The library is
    called once, with exactly that message. *)
Theorem verifyKey_true_iff_valid (rawBody : Buffer)
    (signature timestamp clientPublicKey : JSString) (w : World) :
  (fst (verifyKey rawBody signature timestamp clientPublicKey w) = Normal true
   <-> valid_signature signature (signed_message timestamp rawBody)
         clientPublicKey) /\
  calls (snd (verifyKey rawBody signature timestamp clientPublicKey w)) =
    calls w ++
    [CallVerify signature (Buffer_from_utf8 timestamp ++ rawBody) clientPublicKey].
Proof.
  rewrite verifyKey_run. unfold valid_signature. cbn [fst snd]. split.
  - destruct (edVerify signature (signed_message timestamp rawBody)
                clientPublicKey) as [[|]|e]; split; congruence.
  - reflexivity.
Qed.

(** C2: [verifyKey] never throws: on every input it returns a boolean, which
    is the answer of the Ed25519 library when that one answers and [false]
    when it throws (malformed or unparsable signature or key). *)
Theorem verifyKey_never_throws (rawBody : Buffer)
    (signature timestamp clientPublicKey : JSString) (w : World) :
  exists b : bool,
    fst (verifyKey rawBody signature timestamp clientPublicKey w) = Normal b /\
    b = match edVerify signature (signed_message timestamp rawBody)
                clientPublicKey with
        | Normal answer => answer
        | Throw _ => false
        end.
Proof. rewrite verifyKey_run. eexists. split; reflexivity. Qed.

End Verifier.

(* ------------------------------------------------------------------ *)
(** ** The request gate *)

Section Gate.
Context `{RT : Runtime}.

(** C3: when the signature header or the timestamp header is absent or empty
    (one of them or both), the middleware answers 401 "Invalid headers" and
    does nothing else: the request (its body and its stream) is untouched, no
    library function is called (no verification), [next] is not invoked. *)
Theorem missing_header_rejected (clientPublicKey : JSString) (mw : M unit)
    (w : World) :
  verifyKeyMiddleware clientPublicKey = Normal mw ->
  absent_or_empty (signature_header (req w)) \/
  absent_or_empty (timestamp_header (req w)) ->
  let w' := snd (mw w) in
  fst (mw w) = Normal tt /\
  statusCode (res w') = 401%Z /\
  sent (res w') = Some (js "Invalid headers") /\
  req w' = req w /\
  calls w' = calls w /\
  nextCalls w' = nextCalls w /\
  console w' = console w /\
  unhandled w' = unhandled w.
Proof.
  intros Hmw Hmissing. apply verifyKeyMiddleware_Normal in Hmw. subst mw.
  rewrite (middleware_missing _ _ Hmissing). cbn. repeat split; reflexivity.
Qed.

(** C4: when both headers are present and the signature does not verify, the
    middleware answers 401 "Invalid signature" and stops: nothing is handed to
    [JSON.parse], [req.body] stays as it was and [next] is not invoked. *)
Theorem invalid_signature_rejected (clientPublicKey : JSString) (mw : M unit)
    (w : World) :
  verifyKeyMiddleware clientPublicKey = Normal mw ->
  headers_present (req w) ->
  ~ request_verifies clientPublicKey (req w) ->
  let w' := snd (mw w) in
  fst (mw w) = Normal tt /\
  statusCode (res w') = 401%Z /\
  sent (res w') = Some (js "Invalid signature") /\
  parsed_texts (calls w') = parsed_texts (calls w) /\
  body (req w') = body (req w) /\
  nextCalls w' = nextCalls w /\
  unhandled w' = unhandled w.
Proof.
  intros Hmw Hhdr Hbad. apply verifyKeyMiddleware_Normal in Hmw. subst mw.
  rewrite (middleware_run _ _ Hhdr). unfold detach.
  rewrite (onBodyComplete_invalid _ _ _ _ _ Hbad).
  destruct (after_acquisition_keeps w) as (Hres & Hnext & Hun & Hbody).
  cbn. unfold verify_logged. cbn.
  rewrite parsed_texts_app, parsed_texts_after_acquisition. cbn.
  rewrite app_nil_r. repeat split; try reflexivity; assumption.
Qed.

(** C5: when both headers are present, the signature verifies and the body
    parses to a payload whose [type] is 1 (PING), the middleware answers on a
    response whose status is the default 200: it sets Content-Type to
    application/json, sends the JSON serialization of [{ type: 1 }] (PONG)
    and does not invoke [next]. *)
Theorem ping_answered_with_pong (clientPublicKey : JSString) (mw : M unit)
    (w : World) (payload : JSValue) :
  verifyKeyMiddleware clientPublicKey = Normal mw ->
  headers_present (req w) ->
  request_verifies clientPublicKey (req w) ->
  JSON_parse (Buffer_toString_utf8 (raw_body_of (req w))) = Normal payload ->
  has_type payload 1%float = true ->
  statusCode (res w) = 200%Z ->
  let w' := snd (mw w) in
  fst (mw w) = Normal tt /\
  statusCode (res w') = 200%Z /\
  outHeaders (res w') !! "Content-Type" = Some (js "application/json") /\
  sent (res w') = Some (JSON_stringify (JObject [(js "type", JNumber 1%float)])) /\
  nextCalls w' = nextCalls w /\
  body (req w') = body (req w) /\
  unhandled w' = unhandled w.
Proof.
  intros Hmw Hhdr Hok Hparse Hping Hstatus.
  apply verifyKeyMiddleware_Normal in Hmw. subst mw.
  rewrite (middleware_run _ _ Hhdr). unfold detach.
  rewrite (onBodyComplete_ping _ _ _ _ _ _ Hok Hparse Hping).
  destruct (after_acquisition_keeps w) as (Hres & Hnext & Hun & Hbody).
  cbn. unfold parse_logged, verify_logged. cbn.
  rewrite Hres, lookup_insert_eq. repeat split; try reflexivity; assumption.
Qed.

(** C6: when both headers are present, the signature verifies and the body
    parses to a payload (any truthy value, so any object) whose [type] is not
    1, the middleware leaves the response as it was, stores the parsed
    payload itself in [req.body] and invokes [next] exactly once. *)
Theorem other_payload_forwarded (clientPublicKey : JSString) (mw : M unit)
    (w : World) (payload : JSValue) :
  verifyKeyMiddleware clientPublicKey = Normal mw ->
  headers_present (req w) ->
  request_verifies clientPublicKey (req w) ->
  JSON_parse (Buffer_toString_utf8 (raw_body_of (req w))) = Normal payload ->
  truthy payload = true ->
  has_type payload 1%float = false ->
  let w' := snd (mw w) in
  fst (mw w) = Normal tt /\
  res w' = res w /\
  body (req w') = Some (BodyJS payload) /\
  nextCalls w' = S (nextCalls w) /\
  unhandled w' = unhandled w.
Proof.
  intros Hmw Hhdr Hok Hparse Htruthy Hother.
  apply verifyKeyMiddleware_Normal in Hmw. subst mw.
  rewrite (middleware_run _ _ Hhdr). unfold detach.
  rewrite (onBodyComplete_forward _ _ _ _ _ _ Hok Hparse);
    [|rewrite Htruthy; exact Hother].
  destruct (after_acquisition_keeps w) as (Hres & Hnext & Hun & Hbody).
  cbn. unfold parse_logged, verify_logged. cbn. rewrite Htruthy.
  repeat split; try reflexivity; try assumption. now rewrite Hnext.
Qed.

End Gate.

(* ------------------------------------------------------------------ *)
(** ** Acquiring the body, and the payloads that are not objects *)

Section Acquisition.
Context `{RT : Runtime}.


(** C8: when no body has been materialized, the middleware reads the stream
    to its end and hands the concatenation of the chunks, in arrival order,
    to verification. So for every body and every way of cutting it into
    chunks, the signed message is built from the body itself, and two ways of
    cutting the same body give the same run (same results, same world). *)
Theorem stream_read_to_completion (clientPublicKey : JSString) (mw : M unit)
    (w : World) (original : Buffer) (chunks chunks' : list Buffer) :
  verifyKeyMiddleware clientPublicKey = Normal mw ->
  headers_present (req w) ->
  ~ materialized (req w) ->
  Buffer_concat chunks = original ->
  Buffer_concat chunks' = original ->
  let ts := as_string (timestamp_header (req w)) in
  let sig := as_string (signature_header (req w)) in
  let w' := snd (mw (with_pending chunks w)) in
  mw (with_pending chunks w) =
    detach (onBodyComplete clientPublicKey ts sig original)
      (with_req (drained (req w)) w) /\
  pending (req w') = [] /\
  flowing (req w') = true /\
  (exists rest, calls w' =
     calls w ++ CallVerify sig (signed_message ts original) clientPublicKey :: rest) /\
  console w' = console w /\
  mw (with_pending chunks' w) = mw (with_pending chunks w).
Proof.
  intros Hmw Hhdr Hnot Hcat Hcat' ts sig w'. subst w'.
  apply verifyKeyMiddleware_Normal in Hmw. subst mw.
  assert (Hfalse : body_truthy (body (req w)) = false).
  { unfold materialized in Hnot. destruct (body_truthy (body (req w)));
      [exfalso; apply Hnot; reflexivity | reflexivity]. }
  assert (Hrun : forall cs, Buffer_concat cs = original ->
            middleware clientPublicKey (with_pending cs w) =
            detach (onBodyComplete clientPublicKey ts sig original)
              (with_req (drained (req w)) w)).
  { intros cs Hcs. rewrite middleware_run by exact Hhdr.
    unfold raw_body_of, after_acquisition, with_pending, with_req, drained.
    cbn [req body pending headers flowing res console nextCalls calls unhandled].
    rewrite Hfalse, Hcs. reflexivity. }
  rewrite (Hrun chunks Hcat), (Hrun chunks' Hcat').
  pose proof (detach_frame clientPublicKey ts sig original
                (with_req (drained (req w)) w)) as Hframe.
  cbv zeta in Hframe.
  destruct Hframe as (_ & Hcon & _ & Hpend & Hflow & rest & Hcalls).
  repeat split; eauto.
Qed.

(** C9, as the code has it: when the signature verifies and the raw body is
    not valid JSON, the error thrown by [JSON.parse] rejects the promise of
    [onBodyComplete], which nobody awaits: it is left as an unhandled
    rejection. The response is not written at all (so it is not the 401
    "Invalid signature" answer either), [req.body] keeps its value and [next]
    is not invoked. *)
Theorem parse_failure_unhandled (clientPublicKey : JSString) (mw : M unit)
    (w : World) (e : JSError) :
  verifyKeyMiddleware clientPublicKey = Normal mw ->
  headers_present (req w) ->
  request_verifies clientPublicKey (req w) ->
  JSON_parse (Buffer_toString_utf8 (raw_body_of (req w))) = Throw e ->
  let w' := snd (mw w) in
  fst (mw w) = Normal tt /\
  res w' = res w /\
  unhandled w' = unhandled w ++ [e] /\
  body (req w') = body (req w) /\
  nextCalls w' = nextCalls w.
Proof.
  intros Hmw Hhdr Hok Hparse.
  apply verifyKeyMiddleware_Normal in Hmw. subst mw.
  rewrite (middleware_run _ _ Hhdr). unfold detach.
  rewrite (onBodyComplete_parse_error _ _ _ _ _ _ Hok Hparse).
  destruct (after_acquisition_keeps w) as (Hres & Hnext & Hun & Hbody).
  cbn. unfold parse_logged, verify_logged. cbn. rewrite Hun.
  repeat split; try reflexivity; assumption.
Qed.

(** C10: when the signature verifies and the raw body parses to a falsy value
    ([null], [false], [0], the empty string), the middleware puts the empty
    object in place of the payload: it stores [{}] in [req.body] and invokes
    [next] once; the response is not written (no PONG) and no error is left
    behind. *)
Theorem falsy_payload_replaced (clientPublicKey : JSString) (mw : M unit)
    (w : World) (payload : JSValue) :
  verifyKeyMiddleware clientPublicKey = Normal mw ->
  headers_present (req w) ->
  request_verifies clientPublicKey (req w) ->
  JSON_parse (Buffer_toString_utf8 (raw_body_of (req w))) = Normal payload ->
  truthy payload = false ->
  let w' := snd (mw w) in
  fst (mw w) = Normal tt /\
  body (req w') = Some (BodyJS (JObject [])) /\
  nextCalls w' = S (nextCalls w) /\
  res w' = res w /\
  unhandled w' = unhandled w.
Proof.
  intros Hmw Hhdr Hok Hparse Hfalsy.
  apply verifyKeyMiddleware_Normal in Hmw. subst mw.
  rewrite (middleware_run _ _ Hhdr). unfold detach.
  rewrite (onBodyComplete_forward _ _ _ _ _ _ Hok Hparse);
    [|rewrite Hfalsy; reflexivity].
  destruct (after_acquisition_keeps w) as (Hres & Hnext & Hun & Hbody).
  cbn. unfold parse_logged, verify_logged. cbn. rewrite Hfalsy.
  repeat split; try reflexivity; try assumption. now rewrite Hnext.
Qed.

End Acquisition.

(* ------------------------------------------------------------------ *)
(** ** The theorems at work on sample requests *)

Lemma sample_gate_built : verifyKeyMiddleware sample_public_key = Normal sample_gate.
Proof. reflexivity. Qed.

Lemma sample_headers_present (signature : JSString) (b : option BodyValue)
    (chunks : list Buffer) (fl : bool) :
  signature <> [] ->
  headers_present (mkRequest (sample_headers signature) b chunks fl).
Proof.
  intros Hsig. split; intros [H | H]; vm_compute in H; try discriminate.
  apply Hsig. congruence.
Qed.

Lemma verifyKey_true_iff_valid_witness :
  fst (verifyKey (Buffer_from_utf8 (js "null")) sig_null sample_timestamp
         sample_public_key (initial_world unsigned_request)) = Normal true.
Proof.
  apply (verifyKey_true_iff_valid (Buffer_from_utf8 (js "null")) sig_null
           sample_timestamp sample_public_key (initial_world unsigned_request)).
  vm_compute. reflexivity.
Defined.

Lemma verifyKey_never_throws_witness :
  edVerify (js "zz") (signed_message sample_timestamp []) sample_public_key
    = Throw (mkError Error (js "Expected hex string of the right length")) /\
  exists b : bool,
    fst (verifyKey [] (js "zz") sample_timestamp sample_public_key
           (initial_world unsigned_request)) = Normal b /\ b = false.
Proof.
  split; [vm_compute; reflexivity|].
  destruct (verifyKey_never_throws [] (js "zz") sample_timestamp
              sample_public_key (initial_world unsigned_request))
    as (b & Hrun & Hb).
  exists b. split; [exact Hrun|]. rewrite Hb. vm_compute. reflexivity.
Defined.

Lemma missing_header_rejected_witness :
  let w := initial_world unsigned_request in
  let w' := snd (sample_gate w) in
  statusCode (res w') = 401%Z /\
  sent (res w') = Some (js "Invalid headers") /\
  req w' = unsigned_request /\
  calls w' = [] /\
  nextCalls w' = 0%nat.
Proof.
  intros w w'.
  destruct (missing_header_rejected sample_public_key sample_gate w
              sample_gate_built (or_introl (or_introl eq_refl)))
    as (_ & Hstatus & Hsent & Hreq & Hcalls & Hnext & _).
  repeat split; assumption.
Defined.

Lemma invalid_signature_rejected_witness :
  let w := initial_world
             (buffered_request sig_ping (sample_stringify command_payload)) in
  let w' := snd (sample_gate w) in
  statusCode (res w') = 401%Z /\
  sent (res w') = Some (js "Invalid signature") /\
  parsed_texts (calls w') = [] /\
  nextCalls w' = 0%nat.
Proof.
  intros w w'.
  assert (Hhdr : headers_present (req w))
    by (apply sample_headers_present; discriminate).
  assert (Hbad : ~ request_verifies sample_public_key (req w))
    by (intros H; vm_compute in H; discriminate).
  destruct (invalid_signature_rejected sample_public_key sample_gate w
              sample_gate_built Hhdr Hbad)
    as (_ & Hstatus & Hsent & Hparsed & _ & Hnext & _).
  repeat split; assumption.
Defined.

Lemma ping_answered_with_pong_witness :
  let w := initial_world
             (buffered_request sig_ping (sample_stringify ping_payload)) in
  let w' := snd (sample_gate w) in
  statusCode (res w') = 200%Z /\
  outHeaders (res w') !! "Content-Type" = Some (js "application/json") /\
  sent (res w') = Some (js "{" ++ quote ++ js "type" ++ quote ++ js ":1}") /\
  nextCalls w' = 0%nat.
Proof.
  intros w w'.
  assert (Hhdr : headers_present (req w))
    by (apply sample_headers_present; discriminate).
  assert (Hok : request_verifies sample_public_key (req w))
    by (vm_compute; reflexivity).
  assert (Hparse : JSON_parse (Buffer_toString_utf8 (raw_body_of (req w)))
                   = Normal ping_payload)
    by (vm_compute; reflexivity).
  destruct (ping_answered_with_pong sample_public_key sample_gate w ping_payload
              sample_gate_built Hhdr Hok Hparse eq_refl eq_refl)
    as (_ & Hstatus & Htype & Hsent & Hnext & _).
  repeat split; assumption.
Defined.

Lemma other_payload_forwarded_witness :
  let w := initial_world
             (buffered_request sig_command (sample_stringify command_payload)) in
  let w' := snd (sample_gate w) in
  res w' = fresh_response /\
  body (req w') = Some (BodyJS command_payload) /\
  nextCalls w' = 1%nat.
Proof.
  intros w w'.
  assert (Hhdr : headers_present (req w))
    by (apply sample_headers_present; discriminate).
  assert (Hok : request_verifies sample_public_key (req w))
    by (vm_compute; reflexivity).
  assert (Hparse : JSON_parse (Buffer_toString_utf8 (raw_body_of (req w)))
                   = Normal command_payload)
    by (vm_compute; reflexivity).
  destruct (other_payload_forwarded sample_public_key sample_gate w
              command_payload sample_gate_built Hhdr Hok Hparse eq_refl eq_refl)
    as (_ & Hres & Hbody & Hnext & _).
  repeat split; assumption.
Defined.



(** The body of the sample command, byte by byte and in one piece. *)
Lemma stream_read_to_completion_witness :
  let original := Buffer_from_utf8 (sample_stringify command_payload) in
  let w := initial_world (streamed_request sig_command []) in
  sample_gate (with_pending [original] w) =
  sample_gate (with_pending (map (fun b => [b]) original) w) /\
  pending (req (snd (sample_gate (with_pending (map (fun b => [b]) original) w))))
  = [].
Proof.
  intros original w.
  assert (Hhdr : headers_present (req w))
    by (apply sample_headers_present; discriminate).
  assert (Hnot : ~ materialized (req w))
    by (intros H; vm_compute in H; discriminate).
  destruct (stream_read_to_completion sample_public_key sample_gate w original
              (map (fun b => [b]) original) [original]
              sample_gate_built Hhdr Hnot eq_refl eq_refl)
    as (_ & Hpending & _ & _ & _ & Hsame).
  split; [exact Hsame | exact Hpending].
Defined.

Lemma parse_failure_unhandled_witness :
  let w := initial_world (buffered_request sig_not_json (js "not json")) in
  let w' := snd (sample_gate w) in
  res w' = fresh_response /\
  unhandled w' = [mkError SyntaxError (js "Unexpected token in JSON")] /\
  nextCalls w' = 0%nat.
Proof.
  intros w w'.
  assert (Hhdr : headers_present (req w))
    by (apply sample_headers_present; discriminate).
  assert (Hok : request_verifies sample_public_key (req w))
    by (vm_compute; reflexivity).
  assert (Hparse : JSON_parse (Buffer_toString_utf8 (raw_body_of (req w)))
                   = Throw (mkError SyntaxError (js "Unexpected token in JSON")))
    by (vm_compute; reflexivity).
  destruct (parse_failure_unhandled sample_public_key sample_gate w _
              sample_gate_built Hhdr Hok Hparse)
    as (_ & Hres & Hun & _ & Hnext).
  repeat split; assumption.
Defined.

(** C9 as the specification states it fails on the request whose signed body
    is the text [not json]: the signature verifies, [JSON.parse] throws, and
    the response is never sent, so no client-error response is produced. *)
Lemma parse_failure_no_client_error :
  let w := initial_world (buffered_request sig_not_json (js "not json")) in
  let w' := snd (sample_gate w) in
  verifyKeyMiddleware sample_public_key = Normal sample_gate /\
  headers_present (req w) /\
  request_verifies sample_public_key (req w) /\
  JSON_parse (Buffer_toString_utf8 (raw_body_of (req w)))
    = Throw (mkError SyntaxError (js "Unexpected token in JSON")) /\
  sent (res w') = None /\
  statusCode (res w') = 200%Z /\
  ~ client_error_response (res w').
Proof.
  intros w w'. split; [reflexivity|].
  split; [apply sample_headers_present; discriminate|].
  split; [vm_compute; reflexivity|].
  split; [vm_compute; reflexivity|].
  assert (Hsent : sent (res w') = None) by (vm_compute; reflexivity).
  split; [exact Hsent|]. split; [vm_compute; reflexivity|].
  intros [[data Hdata] _]. rewrite Hsent in Hdata. discriminate.
Qed.

Lemma falsy_payload_replaced_witness :
  Forall
    (fun w : World =>
       body (req (snd (sample_gate w))) = Some (BodyJS (JObject [])) /\
       nextCalls (snd (sample_gate w)) = 1%nat /\
       res (snd (sample_gate w)) = fresh_response /\
       unhandled (snd (sample_gate w)) = [])
    [initial_world (buffered_request sig_null (js "null"));
     initial_world (buffered_request sig_false (js "false"));
     initial_world (buffered_request sig_zero (js "0"));
     initial_world (buffered_request sig_empty_string (quote ++ quote))].
Proof.
  assert (Hhdr : forall sig text, sig <> [] ->
            headers_present (req (initial_world (buffered_request sig text))))
    by (intros; apply sample_headers_present; assumption).
  constructor; [|constructor; [|constructor; [|constructor; [|constructor]]]].
  - destruct (falsy_payload_replaced sample_public_key sample_gate
                (initial_world (buffered_request sig_null (js "null"))) JNull
                sample_gate_built)
      as (_ & Hbody & Hnext & Hres & Hun);
      [apply Hhdr; discriminate | vm_compute; reflexivity
      | vm_compute; reflexivity | reflexivity | repeat split; assumption].
  - destruct (falsy_payload_replaced sample_public_key sample_gate
                (initial_world (buffered_request sig_false (js "false")))
                (JBool false) sample_gate_built)
      as (_ & Hbody & Hnext & Hres & Hun);
      [apply Hhdr; discriminate | vm_compute; reflexivity
      | vm_compute; reflexivity | reflexivity | repeat split; assumption].
  - destruct (falsy_payload_replaced sample_public_key sample_gate
                (initial_world (buffered_request sig_zero (js "0")))
                (JNumber 0%float) sample_gate_built)
      as (_ & Hbody & Hnext & Hres & Hun);
      [apply Hhdr; discriminate | vm_compute; reflexivity
      | vm_compute; reflexivity | reflexivity | repeat split; assumption].
  - destruct (falsy_payload_replaced sample_public_key sample_gate
                (initial_world (buffered_request sig_empty_string (quote ++ quote)))
                (JString []) sample_gate_built)
      as (_ & Hbody & Hnext & Hres & Hun);
      [apply Hhdr; discriminate | vm_compute; reflexivity
      | vm_compute; reflexivity | reflexivity | repeat split; assumption].
Defined.

(* ------------------------------------------------------------------ *)
(** ** UTF-8: decoding what was encoded *)

Ltac lia_div := zify; Z.to_euclidean_division_equations; lia.

Lemma to_N_byte_of_N (n : N) : Byte.to_N (byte_of_N n) = n mod 256.
Proof.
  unfold byte_of_N.
  destruct (Byte.of_N (n mod 256)) as [b|] eqn:E.
  - now apply Byte.to_of_N.
  - exfalso. pose proof (Byte.to_of_N_option_map (n mod 256)) as H.
    rewrite E in H. simpl in H.
    assert (n mod 256 < 256) by (apply N.mod_lt; discriminate).
    destruct (N.leb_spec (n mod 256) 255); [discriminate | lia].
Qed.

Lemma land_pow2_small (a b k : N) : b < 2 ^ k -> N.land (a * 2 ^ k) b = 0.
Proof.
  intros Hb. apply N.bits_inj_0. intros m. rewrite N.land_spec.
  destruct (N.lt_ge_cases m k) as [Hm | Hm].
  - rewrite N.mul_pow2_bits_low by exact Hm. reflexivity.
  - destruct (N.eq_dec b 0) as [-> | Hnz]; [now rewrite N.bits_0, andb_false_r|].
    rewrite (N.bits_above_log2 b m), andb_false_r; [reflexivity|].
    apply N.log2_lt_pow2; [lia|].
    eapply N.lt_le_trans; [exact Hb|]. apply N.pow_le_mono_r; lia.
Qed.

Lemma lor_pow2_small (a b k : N) : b < 2 ^ k -> N.lor (a * 2 ^ k) b = a * 2 ^ k + b.
Proof.
  intros Hb. pose proof (land_pow2_small a b k Hb) as H0.
  rewrite <- N.lxor_lor by exact H0. symmetry. now apply N.add_nocarry_lxor.
Qed.

(* tagged bytes *)
Lemma tagged_byte (tag k x : N) :
  x < 2 ^ k -> tag * 2 ^ k + x < 256 ->
  Byte.to_N (byte_of_N (N.lor (tag * 2 ^ k) x)) = tag * 2 ^ k + x.
Proof.
  intros Hx Hb. rewrite to_N_byte_of_N, lor_pow2_small by exact Hx.
  now apply N.mod_small.
Qed.

Lemma cont_byte (d : N) : d < 64 -> Byte.to_N (byte_of_N (N.lor 0x80 d)) = 0x80 + d.
Proof. intros H. apply (tagged_byte 2 6 d); simpl; lia. Qed.

Lemma low_bits (tag k x : N) :
  x < 2 ^ k -> N.land (tag * 2 ^ k + x) (N.ones k) = x.
Proof.
  intros Hx. rewrite N.land_ones.
  rewrite N.add_comm, N.Div0.mod_add. now apply N.mod_small.
Qed.

Lemma low6 (d : N) : d < 64 -> N.land (0x80 + d) 0x3F = d.
Proof. intros H. exact (low_bits 2 6 d H). Qed.

Lemma shift_in (acc d : N) : d < 64 -> N.lor (N.shiftl acc 6) d = acc * 64 + d.
Proof. intros H. rewrite N.shiftl_mul_pow2. now apply (lor_pow2_small acc d 6). Qed.

Local Abbreviation decode0 := (utf8_decode 0 0 0x80 0xBF).

Lemma decode_cons (cp : N) (needed : nat) (lower upper : N) (b : Byte.byte) (rest : Buffer) :
  utf8_decode cp needed lower upper (b :: rest) =
      let n := Byte.to_N b in
      let lead :=
        if n <=? 0x7F then n :: utf8_decode 0 0 0x80 0xBF rest
        else if (0xC2 <=? n) && (n <=? 0xDF)
        then utf8_decode (N.land n 0x1F) 1 0x80 0xBF rest
        else if (0xE0 <=? n) && (n <=? 0xEF)
        then utf8_decode (N.land n 0xF) 2
               (if n =? 0xE0 then 0xA0 else 0x80)
               (if n =? 0xED then 0x9F else 0xBF) rest
        else if (0xF0 <=? n) && (n <=? 0xF4)
        then utf8_decode (N.land n 0x7) 3
               (if n =? 0xF0 then 0x90 else 0x80)
               (if n =? 0xF4 then 0x8F else 0xBF) rest
        else 0xFFFD :: utf8_decode 0 0 0x80 0xBF rest in
      match needed with
      | O => lead
      | S k =>
          if (lower <=? n) && (n <=? upper) then
            let cp' := N.lor (N.shiftl cp 6) (N.land n 0x3F) in
            match k with
            | O => utf16_units cp' ++ utf8_decode 0 0 0x80 0xBF rest
            | S _ => utf8_decode cp' k 0x80 0xBF rest
            end
          else 0xFFFD :: lead
      end.
Proof. reflexivity. Qed.

Lemma in_range (lo hi n : N) : lo <= n -> n <= hi -> (lo <=? n) && (n <=? hi) = true.
Proof. intros H1 H2. apply andb_true_intro. split; now apply N.leb_le. Qed.

Lemma cont_last (acc d lower upper : N) (rest : Buffer) :
  d < 64 -> lower <= 0x80 + d -> 0x80 + d <= upper ->
  utf8_decode acc 1 lower upper (byte_of_N (N.lor 0x80 d) :: rest)
  = utf16_units (acc * 64 + d) ++ decode0 rest.
Proof.
  intros Hd Hlo Hhi. rewrite decode_cons. cbv zeta.
  rewrite cont_byte by exact Hd. rewrite in_range by assumption.
  rewrite low6 by exact Hd.
  rewrite shift_in by exact Hd. reflexivity.
Qed.

Lemma cont_more (acc d lower upper : N) (k : nat) (rest : Buffer) :
  d < 64 -> lower <= 0x80 + d -> 0x80 + d <= upper ->
  utf8_decode acc (S (S k)) lower upper (byte_of_N (N.lor 0x80 d) :: rest)
  = utf8_decode (acc * 64 + d) (S k) 0x80 0xBF rest.
Proof.
  intros Hd Hlo Hhi. rewrite decode_cons. cbv zeta.
  rewrite cont_byte by exact Hd. rewrite in_range by assumption.
  rewrite low6 by exact Hd.
  rewrite shift_in by exact Hd. reflexivity.
Qed.

Lemma lead_generic (n : N) (b : Byte.byte) (rest : Buffer) :
  Byte.to_N b = n ->
  decode0 (b :: rest) =
        if n <=? 0x7F then n :: utf8_decode 0 0 0x80 0xBF rest
        else if (0xC2 <=? n) && (n <=? 0xDF)
        then utf8_decode (N.land n 0x1F) 1 0x80 0xBF rest
        else if (0xE0 <=? n) && (n <=? 0xEF)
        then utf8_decode (N.land n 0xF) 2
               (if n =? 0xE0 then 0xA0 else 0x80)
               (if n =? 0xED then 0x9F else 0xBF) rest
        else if (0xF0 <=? n) && (n <=? 0xF4)
        then utf8_decode (N.land n 0x7) 3
               (if n =? 0xF0 then 0x90 else 0x80)
               (if n =? 0xF4 then 0x8F else 0xBF) rest
        else 0xFFFD :: utf8_decode 0 0 0x80 0xBF rest.
Proof. intros <-. rewrite decode_cons. reflexivity. Qed.

Lemma decode_1 (c : N) (rest : Buffer) :
  c < 0x80 -> decode0 (byte_of_N c :: rest) = c :: decode0 rest.
Proof.
  intros H. rewrite (lead_generic c).
  - replace (c <=? 0x7F) with true by (symmetry; apply N.leb_le; lia). reflexivity.
  - rewrite to_N_byte_of_N. apply N.mod_small. lia.
Qed.

Lemma decode_2 (c : N) (rest : Buffer) :
  0x80 <= c < 0x800 -> decode0 (utf8_2 c ++ rest) = c :: decode0 rest.
Proof.
  intros H. unfold utf8_2. cbn [app].
  rewrite N.shiftr_div_pow2. change (2 ^ 6) with 64.
  change 0x3F with (N.ones 6). rewrite N.land_ones. change (2 ^ 6) with 64.
  assert (Hx : c / 64 < 32) by lia_div.
  assert (Hx2 : 2 <= c / 64) by lia_div.
  assert (Hd : c mod 64 < 64) by lia_div.
  rewrite (lead_generic (0xC0 + c / 64)).
  2:{ apply (tagged_byte 6 5 (c / 64)); simpl; lia_div. }
  replace (0xC0 + c / 64 <=? 0x7F) with false by (symmetry; apply N.leb_gt; lia_div).
  rewrite in_range by lia_div.
  rewrite (low_bits 6 5 (c / 64) : _ -> N.land (0xC0 + c / 64) 0x1F = c / 64)
    by (simpl; lia_div).
  rewrite (cont_last _ _ _ _ _ Hd); [|lia_div|lia_div].
  unfold utf16_units.
  replace (c / 64 * 64 + c mod 64) with c by lia_div.
  replace (c <? 0x10000) with true by (symmetry; apply N.ltb_lt; lia). reflexivity.
Qed.

Lemma is_high_spec (c : N) : is_high_surrogate c = true <-> 0xD800 <= c < 0xDC00.
Proof.
  unfold is_high_surrogate. rewrite andb_true_iff, N.leb_le, N.ltb_lt. reflexivity.
Qed.

Lemma is_low_spec (c : N) : is_low_surrogate c = true <-> 0xDC00 <= c < 0xE000.
Proof.
  unfold is_low_surrogate. rewrite andb_true_iff, N.leb_le, N.ltb_lt. reflexivity.
Qed.

Lemma not_surrogate (c : N) :
  is_high_surrogate c = false -> is_low_surrogate c = false ->
  c < 0xD800 \/ 0xE000 <= c.
Proof.
  intros Hh Hl.
  destruct (N.lt_ge_cases c 0xD800) as [|H1]; [now left|].
  destruct (N.lt_ge_cases c 0xE000) as [H2|]; [|now right]. exfalso.
  destruct (N.lt_ge_cases c 0xDC00) as [H3|H3].
  - assert (is_high_surrogate c = true) by (apply is_high_spec; lia). congruence.
  - assert (is_low_surrogate c = true) by (apply is_low_spec; lia). congruence.
Qed.

Lemma decode_3 (c : N) (rest : Buffer) :
  0x800 <= c < 0x10000 -> c < 0xD800 \/ 0xE000 <= c ->
  decode0 (utf8_3 c ++ rest) = c :: decode0 rest.
Proof.
  intros H Hns. unfold utf8_3. cbn [app].
  rewrite !N.shiftr_div_pow2. change (2 ^ 12) with 4096. change (2 ^ 6) with 64.
  change 0x3F with (N.ones 6). rewrite !N.land_ones. change (2 ^ 6) with 64.
  set (x := c / 4096). set (d1 := (c / 64) mod 64). set (d2 := c mod 64).
  assert (Hx : x < 16) by (subst x; lia_div).
  assert (Hd1 : d1 < 64) by (subst d1; lia_div).
  assert (Hd2 : d2 < 64) by (subst d2; lia_div).
  assert (Hc : (x * 64 + d1) * 64 + d2 = c) by (subst x d1 d2; lia_div).
  assert (Hlow : x = 0 -> 32 <= d1) by (subst x d1; lia_div).
  assert (Hup : x = 13 -> d1 < 32) by (subst x d1; lia_div).
  rewrite (lead_generic (0xE0 + x)).
  2:{ apply (tagged_byte 14 4 x); simpl; lia. }
  replace (0xE0 + x <=? 0x7F) with false by (symmetry; apply N.leb_gt; lia).
  replace ((0xC2 <=? 0xE0 + x) && (0xE0 + x <=? 0xDF)) with false
    by (symmetry; apply andb_false_iff; right; apply N.leb_gt; lia).
  rewrite in_range by lia.
  rewrite (low_bits 14 4 x : _ -> N.land (0xE0 + x) 0xF = x) by (simpl; lia).
  rewrite (cont_more _ _ _ _ _ _ Hd1).
  - rewrite (cont_last _ _ _ _ _ Hd2) by lia.
    rewrite Hc. unfold utf16_units.
    replace (c <? 0x10000) with true by (symmetry; apply N.ltb_lt; lia).
    reflexivity.
  - destruct (N.eqb_spec (0xE0 + x) 0xE0); lia.
  - destruct (N.eqb_spec (0xE0 + x) 0xED); lia.
Qed.

Lemma decode_4 (cp : N) (rest : Buffer) :
  0x10000 <= cp < 0x110000 ->
  decode0 (utf8_4 cp ++ rest) = utf16_units cp ++ decode0 rest.
Proof.
  intros H. unfold utf8_4. cbn [app].
  rewrite !N.shiftr_div_pow2.
  change (2 ^ 18) with 262144. change (2 ^ 12) with 4096. change (2 ^ 6) with 64.
  change 0x3F with (N.ones 6). rewrite !N.land_ones. change (2 ^ 6) with 64.
  set (x := cp / 262144). set (d1 := (cp / 4096) mod 64).
  set (d2 := (cp / 64) mod 64). set (d3 := cp mod 64).
  assert (Hx : x <= 4) by (subst x; lia_div).
  assert (Hd1 : d1 < 64) by (subst d1; lia_div).
  assert (Hd2 : d2 < 64) by (subst d2; lia_div).
  assert (Hd3 : d3 < 64) by (subst d3; lia_div).
  assert (Hc : ((x * 64 + d1) * 64 + d2) * 64 + d3 = cp)
    by (subst x d1 d2 d3; lia_div).
  assert (Hlow : x = 0 -> 16 <= d1) by (subst x d1; lia_div).
  assert (Hup : x = 4 -> d1 < 16) by (subst x d1; lia_div).
  rewrite (lead_generic (0xF0 + x)).
  2:{ apply (tagged_byte 15 4 x); simpl; lia. }
  replace (0xF0 + x <=? 0x7F) with false by (symmetry; apply N.leb_gt; lia).
  replace ((0xC2 <=? 0xF0 + x) && (0xF0 + x <=? 0xDF)) with false
    by (symmetry; apply andb_false_iff; right; apply N.leb_gt; lia).
  replace ((0xE0 <=? 0xF0 + x) && (0xF0 + x <=? 0xEF)) with false
    by (symmetry; apply andb_false_iff; right; apply N.leb_gt; lia).
  rewrite in_range by lia.
  rewrite (low_bits 30 3 x : _ -> N.land (0xF0 + x) 0x7 = x) by (simpl; lia).
  rewrite (cont_more _ _ _ _ _ _ Hd1).
  - rewrite (cont_more _ _ _ _ _ _ Hd2) by lia.
    rewrite (cont_last _ _ _ _ _ Hd3) by lia.
    rewrite Hc. reflexivity.
  - destruct (N.eqb_spec (0xF0 + x) 0xF0); lia.
  - destruct (N.eqb_spec (0xF0 + x) 0xF4); lia.
Qed.

Lemma pair_units (hi lo : N) :
  0xD800 <= hi < 0xDC00 -> 0xDC00 <= lo < 0xE000 ->
  0x10000 <= pair_code_point hi lo < 0x110000 /\
  utf16_units (pair_code_point hi lo) = [hi; lo].
Proof.
  intros Hh Hl. unfold pair_code_point, utf16_units.
  rewrite N.shiftl_mul_pow2. change (2 ^ 10) with 1024.
  split; [lia|].
  replace (0x10000 + (hi - 0xD800) * 1024 + (lo - 0xDC00) <? 0x10000) with false
    by (symmetry; apply N.ltb_ge; lia).
  rewrite N.shiftr_div_pow2. change (2 ^ 10) with 1024.
  change 0x3FF with (N.ones 10). rewrite N.land_ones. change (2 ^ 10) with 1024.
  f_equal; [lia_div | f_equal; lia_div].
Qed.

Lemma decode_replacement (rest : Buffer) :
  decode0 (replacement_bytes ++ rest) = 0xFFFD :: decode0 rest.
Proof.
  change replacement_bytes with (utf8_3 0xFFFD). apply decode_3; lia.
Qed.

Lemma toWellFormed_round_trip_len (n : nat) (s : JSString) :
  (length s <= n)%nat -> code_units s ->
  Buffer_toString_utf8 (Buffer_from_utf8 s) = toWellFormed s.
Proof.
  unfold Buffer_toString_utf8, code_units. revert s.
  induction n as [|n IH]; intros s Hlen Hu.
  - destruct s; [reflexivity | simpl in Hlen; lia].
  - destruct s as [|c rest]; [reflexivity|].
    inversion Hu as [|? ? Hc Hrest]; subst.
    simpl in Hlen. cbn [Buffer_from_utf8 toWellFormed].
    destruct (N.ltb_spec c 0x80) as [H1|H1].
    { assert (Hh : is_high_surrogate c = false)
        by (destruct (is_high_surrogate c) eqn:E; [apply is_high_spec in E; lia | reflexivity]).
      assert (Hl : is_low_surrogate c = false)
        by (destruct (is_low_surrogate c) eqn:E; [apply is_low_spec in E; lia | reflexivity]).
      rewrite Hh, Hl, decode_1 by exact H1. f_equal. apply IH; [lia | exact Hrest]. }
    destruct (N.ltb_spec c 0x800) as [H2|H2].
    { assert (Hh : is_high_surrogate c = false)
        by (destruct (is_high_surrogate c) eqn:E; [apply is_high_spec in E; lia | reflexivity]).
      assert (Hl : is_low_surrogate c = false)
        by (destruct (is_low_surrogate c) eqn:E; [apply is_low_spec in E; lia | reflexivity]).
      rewrite Hh, Hl, decode_2 by lia. f_equal. apply IH; [lia | exact Hrest]. }
    destruct (is_high_surrogate c) eqn:Hh.
    { destruct rest as [|d rest'].
      - rewrite <- (app_nil_r replacement_bytes), decode_replacement. reflexivity.
      - inversion Hrest as [|? ? Hd Hrest']; subst. simpl in Hlen.
        destruct (is_low_surrogate d) eqn:Hl.
        + apply is_high_spec in Hh. apply is_low_spec in Hl.
          destruct (pair_units c d Hh Hl) as [Hrange Hunits].
          rewrite decode_4 by exact Hrange. rewrite Hunits. cbn [app].
          do 2 f_equal. apply IH; [lia | exact Hrest'].
        + rewrite decode_replacement. f_equal. apply IH; [simpl; lia | exact Hrest]. }
    destruct (is_low_surrogate c) eqn:Hl.
    { rewrite decode_replacement. f_equal. apply IH; [lia | exact Hrest]. }
    rewrite decode_3; [|lia|apply not_surrogate; assumption].
    f_equal. apply IH; [lia | exact Hrest].
Qed.

Lemma toWellFormed_id (s : JSString) : isWellFormed s = true -> toWellFormed s = s.
Proof.
  assert (H : forall n s, (length s <= n)%nat -> isWellFormed s = true -> toWellFormed s = s).
  { induction n as [|n IH]; intros [|c rest] Hlen Hwf; try reflexivity;
      simpl in Hlen; try lia.
    cbn [isWellFormed toWellFormed] in *.
    destruct (is_high_surrogate c).
    - destruct rest as [|d rest']; [discriminate|]. simpl in Hlen.
      apply andb_true_iff in Hwf as [Hd Hwf]. rewrite Hd.
      do 2 f_equal. apply IH; [lia | exact Hwf].
    - apply andb_true_iff in Hwf as [Hl Hwf]. apply negb_true_iff in Hl.
      rewrite Hl. f_equal. apply IH; [lia | exact Hwf]. }
  apply (H (length s)). lia.
Qed.

(* ------------------------------------------------------------------ *)
(** ** Every run of the gate *)

Section GateCases.
Context `{RT : Runtime}.

Lemma header_truthy_false (h : option JSString) :
  header_truthy h = false -> absent_or_empty h.
Proof.
  destruct h as [[|c s]|]; simpl; intros H; try discriminate;
    [right | left]; reflexivity.
Qed.

Lemma header_cases (r : IncomingMessage) :
  headers_present r \/
  (absent_or_empty (signature_header r) \/ absent_or_empty (timestamp_header r)).
Proof.
  unfold headers_present.
  destruct (header_truthy (timestamp_header r)) eqn:Ht;
    [|right; right; now apply header_truthy_false].
  destruct (header_truthy (signature_header r)) eqn:Hs;
    [|right; left; now apply header_truthy_false].
  left. split; intros H; apply header_truthy_absent in H; congruence.
Qed.

Lemma verifies_cases (pk : JSString) (r : IncomingMessage) :
  request_verifies pk r \/ ~ request_verifies pk r.
Proof.
  unfold request_verifies, valid_signature.
  destruct (edVerify _ _ _) as [[|]|e]; [left; reflexivity | right | right];
    discriminate.
Qed.

Lemma has_type_or_empty (v : JSValue) (n : float) :
  has_type (if truthy v then v else JObject []) n = true -> has_type v n = true.
Proof. destruct (truthy v); [trivial | discriminate]. Qed.

Lemma or_empty_truthy (v : JSValue) :
  truthy (if truthy v then v else JObject []) = true.
Proof. destruct (truthy v) eqn:E; [exact E | reflexivity]. Qed.

Lemma verifications_app (cs ds : list Call) :
  verifications (cs ++ ds) = verifications cs ++ verifications ds.
Proof. unfold verifications. apply flat_map_app. Qed.

Lemma after_acquisition_calls (w : World) :
  verifications (calls (after_acquisition w)) = verifications (calls w).
Proof.
  unfold after_acquisition.
  destruct (body_truthy (body (req w))); [|reflexivity].
  destruct (body (req w)) as [[buf|v]|]; try reflexivity.
  destruct v; try reflexivity; cbn; rewrite verifications_app; cbn;
    apply app_nil_r.
Qed.

End GateCases.

(** Case analysis of one run of the gate: the five ways it can go. *)
Ltac gate_cases pk w :=
  let Hhdr := fresh "Hhdr" in
  let Hmiss := fresh "Hmiss" in
  let Hok := fresh "Hok" in
  let Hbad := fresh "Hbad" in
  let Hparse := fresh "Hparse" in
  let Hty := fresh "Hty" in
  let v := fresh "v" in
  let e := fresh "e" in
  destruct (header_cases (req w)) as [Hhdr | Hmiss];
  [ rewrite (middleware_run pk w Hhdr); unfold detach;
    destruct (verifies_cases pk (req w)) as [Hok | Hbad];
    [ destruct (JSON_parse (Buffer_toString_utf8 (raw_body_of (req w))))
        as [v | e] eqn:Hparse;
      [ destruct (has_type (if truthy v then v else JObject [])
                    InteractionType.PING) eqn:Hty;
        [ rewrite (onBodyComplete_ping _ _ _ _ _ _ Hok Hparse
                     (has_type_or_empty _ _ Hty))
        | rewrite (onBodyComplete_forward _ _ _ _ _ _ Hok Hparse Hty) ]
      | rewrite (onBodyComplete_parse_error _ _ _ _ _ _ Hok Hparse) ]
    | rewrite (onBodyComplete_invalid _ _ _ _ _ Hbad) ]
  | rewrite (middleware_missing pk w Hmiss) ];
  let Hres := fresh "Hres" in
  let Hnext := fresh "Hnext" in
  let Hun := fresh "Hun" in
  let Hbody := fresh "Hbody" in
  pose proof (after_acquisition_keeps w) as (Hres & Hnext & Hun & Hbody);
  cbn [fst snd]; unfold parse_logged, verify_logged;
  cbn [res req nextCalls unhandled calls console body headers pending flowing
       with_res with_req with_calls with_nextCalls with_unhandled with_console
       statusCode outHeaders sent].


Lemma Buffer_from_utf8_app_len (n : nat) (s t : JSString) :
  (length s <= n)%nat -> no_leading_low_surrogate t ->
  Buffer_from_utf8 (s ++ t) = Buffer_from_utf8 s ++ Buffer_from_utf8 t.
Proof.
  revert s. induction n as [|n IH]; intros s Hlen Ht.
  - destruct s; [reflexivity | simpl in Hlen; lia].
  - destruct s as [|c rest]; [reflexivity|]. simpl in Hlen.
    cbn [app Buffer_from_utf8].
    destruct (c <? 0x80); [rewrite IH by (assumption || lia); reflexivity|].
    destruct (c <? 0x800);
      [rewrite IH by (assumption || lia); now rewrite app_assoc|].
    destruct (is_high_surrogate c).
    + destruct rest as [|d rest'].
      * cbn [app]. destruct t as [|d t']; [now rewrite app_nil_r|].
        simpl in Ht. rewrite Ht. reflexivity.
      * cbn [app]. simpl in Hlen. destruct (is_low_surrogate d).
        -- rewrite IH by (assumption || lia). now rewrite app_assoc.
        -- rewrite <- app_assoc. f_equal.
           apply (IH (d :: rest')); [simpl; lia | assumption].
    + destruct (is_low_surrogate c);
        rewrite IH by (assumption || lia); now rewrite app_assoc.
Qed.

Lemma Buffer_from_utf8_app (s t : JSString) :
  no_leading_low_surrogate t ->
  Buffer_from_utf8 (s ++ t) = Buffer_from_utf8 s ++ Buffer_from_utf8 t.
Proof. apply (Buffer_from_utf8_app_len (length s)). lia. Qed.

Section GateFacts.
Context `{RT : Runtime}.

Ltac finish :=
  repeat match goal with
         | H : _ = _ |- _ => rewrite H
         end.

(** X12: the signed message does not record where the timestamp ends. Moving
    a suffix of the timestamp to the front of the body (its UTF-8 bytes) gives
    the same answer of [verifyKey] for the same signature and key, as long as
    the cut does not fall inside a surrogate pair. *)
Theorem signed_message_boundary (rawBody : Buffer)
    (signature t1 t2 clientPublicKey : JSString) (w : World) :
  no_leading_low_surrogate t2 ->
  fst (verifyKey rawBody signature (t1 ++ t2) clientPublicKey w) =
  fst (verifyKey (Buffer_from_utf8 t2 ++ rawBody) signature t1 clientPublicKey w).
Proof.
  intros Ht. rewrite !verifyKey_run. cbn [fst]. unfold signed_message.
  rewrite Buffer_from_utf8_app by exact Ht. now rewrite <- app_assoc.
Qed.

Lemma gate_verifications (pk : JSString) (w : World) :
  headers_present (req w) ->
  verifications (calls (snd (middleware pk w))) =
  verifications (calls w) ++
  [(as_string (signature_header (req w)),
    signed_message (as_string (timestamp_header (req w))) (raw_body_of (req w)),
    pk)].
Proof.
  intros Hp.
  assert (Hmissing : absent_or_empty (signature_header (req w)) \/
                     absent_or_empty (timestamp_header (req w)) -> False).
  { destruct Hp as [Ht Hs]. intros [H | H]; [apply Hs | apply Ht]; exact H. }
  gate_cases pk w; try (exfalso; exact (Hmissing Hmiss));
    rewrite ?verifications_app, ?after_acquisition_calls; cbn;
    rewrite ?app_nil_r; reflexivity.
Qed.

Lemma gate_parsed_texts (pk : JSString) (w : World) :
  headers_present (req w) ->
  request_verifies pk (req w) ->
  parsed_texts (calls (snd (middleware pk w))) =
  parsed_texts (calls w) ++ [Buffer_toString_utf8 (raw_body_of (req w))].
Proof.
  intros Hp Hv.
  assert (Hmissing : absent_or_empty (signature_header (req w)) \/
                     absent_or_empty (timestamp_header (req w)) -> False).
  { destruct Hp as [Ht Hs]. intros [H | H]; [apply Hs | apply Ht]; exact H. }
  gate_cases pk w; try (exfalso; exact (Hmissing Hmiss));
    try (exfalso; apply Hbad; assumption);
    rewrite ?parsed_texts_app, ?parsed_texts_after_acquisition; cbn;
    rewrite ?app_nil_r; reflexivity.
Qed.

Lemma gate_parsed_texts_unverified (pk : JSString) (w : World) :
  ~ (headers_present (req w) /\ request_verifies pk (req w)) ->
  parsed_texts (calls (snd (middleware pk w))) = parsed_texts (calls w).
Proof.
  intros Hno.
  gate_cases pk w; try (exfalso; apply Hno; split; assumption);
    rewrite ?parsed_texts_app, ?parsed_texts_after_acquisition; cbn;
    rewrite ?app_nil_r; reflexivity.
Qed.


(** X3: a run of the middleware invokes [next] at most once, and when it
    does, it has not written the response and has left no error behind. *)
Theorem forward_excludes_response (clientPublicKey : JSString) (mw : M unit)
    (w : World) :
  verifyKeyMiddleware clientPublicKey = Normal mw ->
  let w' := snd (mw w) in
  nextCalls w' = nextCalls w \/
  (nextCalls w' = S (nextCalls w) /\ res w' = res w /\
   unhandled w' = unhandled w).
Proof.
  intros Hmw w'. subst w'. apply verifyKeyMiddleware_Normal in Hmw. subst mw.
  gate_cases clientPublicKey w; rewrite ?Hnext, ?Hres, ?Hun; auto.
Qed.

(** X4: [req.body] is assigned exactly when [next] is invoked. What
    downstream then finds there is a truthy parsed value whose [type] is not
    1: never a Buffer, never a falsy value, never a PING. *)
Theorem body_replaced_only_on_forward (clientPublicKey : JSString)
    (mw : M unit) (w : World) :
  verifyKeyMiddleware clientPublicKey = Normal mw ->
  let w' := snd (mw w) in
  (nextCalls w' = nextCalls w /\ body (req w') = body (req w)) \/
  (nextCalls w' = S (nextCalls w) /\
   exists v, body (req w') = Some (BodyJS v) /\ truthy v = true /\
             has_type v 1%float = false).
Proof.
  intros Hmw w'. subst w'. apply verifyKeyMiddleware_Normal in Hmw. subst mw.
  gate_cases clientPublicKey w; rewrite ?Hnext, ?Hres, ?Hun, ?Hbody; auto.
  right. split; [reflexivity|]. eexists. split; [reflexivity|].
  split; [apply or_empty_truthy | exact Hty].
Qed.

(** X2: [next] is invoked only for a request that carries both headers,
    whose signature verifies for its timestamp and raw body under the
    configured key, and whose body is valid JSON. *)
Theorem next_only_after_verification (clientPublicKey : JSString)
    (mw : M unit) (w : World) :
  verifyKeyMiddleware clientPublicKey = Normal mw ->
  nextCalls (snd (mw w)) <> nextCalls w ->
  headers_present (req w) /\
  request_verifies clientPublicKey (req w) /\
  exists v, JSON_parse (Buffer_toString_utf8 (raw_body_of (req w))) = Normal v.
Proof.
  intros Hmw. apply verifyKeyMiddleware_Normal in Hmw. subst mw.
  gate_cases clientPublicKey w; rewrite ?Hnext; intros Hne;
    try (exfalso; apply Hne; reflexivity).
  eauto.
Qed.


(** X7: [JSON.parse] is called exactly once, on the UTF-8 decoding of the
    raw body, when the headers are present and the signature verifies, and
    is not called at all otherwise. *)
Theorem parse_only_verified_bytes (clientPublicKey : JSString) (mw : M unit)
    (w : World) :
  verifyKeyMiddleware clientPublicKey = Normal mw ->
  let w' := snd (mw w) in
  (headers_present (req w) /\ request_verifies clientPublicKey (req w) ->
   parsed_texts (calls w') =
   parsed_texts (calls w) ++ [Buffer_toString_utf8 (raw_body_of (req w))]) /\
  (~ (headers_present (req w) /\ request_verifies clientPublicKey (req w)) ->
   parsed_texts (calls w') = parsed_texts (calls w)).
Proof.
  intros Hmw w'. subst w'. apply verifyKeyMiddleware_Normal in Hmw. subst mw.
  split; [intros [Hp Hv]; now apply gate_parsed_texts
         | apply gate_parsed_texts_unverified].
Qed.

(** X8: whatever the request, the response is left as it was, or is one of
    three: 401 "Invalid headers", 401 "Invalid signature", or the PONG text
    with Content-Type application/json and the status it had. *)
Theorem response_writes (clientPublicKey : JSString) (mw : M unit)
    (w : World) :
  verifyKeyMiddleware clientPublicKey = Normal mw ->
  let w' := snd (mw w) in
  res w' = res w \/
  res w' = mkResponse 401 (outHeaders (res w)) (Some (js "Invalid headers")) \/
  res w' = mkResponse 401 (outHeaders (res w)) (Some (js "Invalid signature")) \/
  res w' = mkResponse (statusCode (res w))
             (<["Content-Type" := js "application/json"]> (outHeaders (res w)))
             (Some (JSON_stringify (JObject [(js "type", JNumber 1%float)]))).
Proof.
  intros Hmw w'. subst w'. apply verifyKeyMiddleware_Normal in Hmw. subst mw.
  gate_cases clientPublicKey w; rewrite ?Hres; auto.
Qed.

(** X9: a [req.body] that is set to a falsy value (the empty string, [0],
    [null], [false]) is not used: the stream is read to its end and the
    signature is checked against the bytes of the stream. *)
Theorem falsy_body_reads_stream (clientPublicKey : JSString) (mw : M unit)
    (w : World) (v : JSValue) :
  verifyKeyMiddleware clientPublicKey = Normal mw ->
  headers_present (req w) ->
  body (req w) = Some (BodyJS v) ->
  truthy v = false ->
  let w' := snd (mw w) in
  raw_body_of (req w) = Buffer_concat (pending (req w)) /\
  pending (req w') = [] /\
  flowing (req w') = true /\
  verifications (calls w') =
  verifications (calls w) ++
  [(as_string (signature_header (req w)),
    signed_message (as_string (timestamp_header (req w)))
      (Buffer_concat (pending (req w))),
    clientPublicKey)].
Proof.
  intros Hmw Hhdr Hb Hfalsy w'. subst w'.
  apply verifyKeyMiddleware_Normal in Hmw. subst mw.
  assert (Hraw : raw_body_of (req w) = Buffer_concat (pending (req w))).
  { unfold raw_body_of. rewrite Hb. cbn [body_truthy]. now rewrite Hfalsy. }
  assert (Hacq : after_acquisition w = with_req (drained (req w)) w).
  { unfold after_acquisition. rewrite Hb. cbn [body_truthy]. now rewrite Hfalsy. }
  split; [exact Hraw|].
  rewrite (middleware_run _ _ Hhdr), Hacq, Hraw.
  pose proof (detach_frame clientPublicKey
                (as_string (timestamp_header (req w)))
                (as_string (signature_header (req w)))
                (Buffer_concat (pending (req w)))
                (with_req (drained (req w)) w)) as Hframe.
  cbv zeta in Hframe.
  destruct Hframe as (_ & _ & _ & Hpend & Hflow & _).
  split; [exact Hpend|]. split; [exact Hflow|].
  rewrite <- Hraw, <- Hacq, <- (middleware_run _ _ Hhdr).
  apply gate_verifications. exact Hhdr.
Qed.

(** X11: when [req.body] is a string and the signature verifies, the text
    handed to [JSON.parse] is that string with unpaired surrogates replaced
    by U+FFFD; a well-formed string is parsed exactly as it was written. *)
Theorem string_body_parsed_as_written (clientPublicKey : JSString)
    (mw : M unit) (w : World) (s : JSString) :
  verifyKeyMiddleware clientPublicKey = Normal mw ->
  headers_present (req w) ->
  request_verifies clientPublicKey (req w) ->
  body (req w) = Some (BodyJS (JString s)) ->
  s <> [] ->
  code_units s ->
  let w' := snd (mw w) in
  parsed_texts (calls w') = parsed_texts (calls w) ++ [toWellFormed s] /\
  (isWellFormed s = true ->
   parsed_texts (calls w') = parsed_texts (calls w) ++ [s]).
Proof.
  intros Hmw Hhdr Hok Hb Hne Hu w'. subst w'.
  apply verifyKeyMiddleware_Normal in Hmw. subst mw.
  rewrite (gate_parsed_texts _ _ Hhdr Hok).
  assert (Hraw : raw_body_of (req w) = Buffer_from_utf8 s).
  { unfold raw_body_of. rewrite Hb. destruct s; [congruence | reflexivity]. }
  rewrite Hraw, (toWellFormed_round_trip_len (length s)) by (lia || exact Hu).
  split; [reflexivity|]. intros Hwf. now rewrite toWellFormed_id.
Qed.

(** X13: how the body was acquired does not matter. Two requests with the
    same headers whose acquired raw bodies are equal (a Buffer, a string, or
    chunks of a stream) get the same response, the same decision to invoke
    [next], the same unhandled error and, when forwarded, the same
    [req.body]. *)
Theorem acquisition_path_irrelevant (clientPublicKey : JSString)
    (mw : M unit) (w1 w2 : World) :
  verifyKeyMiddleware clientPublicKey = Normal mw ->
  headers (req w1) = headers (req w2) ->
  raw_body_of (req w1) = raw_body_of (req w2) ->
  res w1 = res w2 ->
  nextCalls w1 = nextCalls w2 ->
  unhandled w1 = unhandled w2 ->
  let w1' := snd (mw w1) in
  let w2' := snd (mw w2) in
  res w1' = res w2' /\
  nextCalls w1' = nextCalls w2' /\
  unhandled w1' = unhandled w2' /\
  (nextCalls w1' <> nextCalls w1 -> body (req w1') = body (req w2')).
Proof.
  intros Hmw Hh Hraw Hr Hn Hu w1' w2'. subst w1' w2'.
  apply verifyKeyMiddleware_Normal in Hmw. subst mw.
  assert (Hts : timestamp_header (req w1) = timestamp_header (req w2))
    by (unfold timestamp_header; now rewrite Hh).
  assert (Hsg : signature_header (req w1) = signature_header (req w2))
    by (unfold signature_header; now rewrite Hh).
  assert (Hhp : headers_present (req w1) <-> headers_present (req w2))
    by (unfold headers_present; now rewrite Hts, Hsg).
  assert (Hrv : request_verifies clientPublicKey (req w1) <->
                request_verifies clientPublicKey (req w2))
    by (unfold request_verifies; now rewrite Hts, Hsg, Hraw).
  assert (Hmissing : forall w,
            absent_or_empty (signature_header (req w)) \/
            absent_or_empty (timestamp_header (req w)) ->
            ~ headers_present (req w)).
  { intros w [H | H] [Ht Hs]; [apply Hs | apply Ht]; exact H. }
  gate_cases clientPublicKey w1; gate_cases clientPublicKey w2;
    try (exfalso; eapply Hmissing; [eassumption | tauto]);
    try (exfalso; tauto);
    try (rewrite Hraw in *; congruence);
    rewrite ?Hts, ?Hsg, ?Hraw in *.
  all: repeat match goal with
              | H : res (after_acquisition _) = _ |- _ => rewrite H; clear H
              | H : nextCalls (after_acquisition _) = _ |- _ => rewrite H; clear H
              | H : unhandled (after_acquisition _) = _ |- _ => rewrite H; clear H
              | H : body (req (after_acquisition _)) = _ |- _ => rewrite H; clear H
              end.
  all: rewrite ?Hr, ?Hn, ?Hu.
  all: try match goal with
           | H1 : JSON_parse ?t = Normal ?a, H2 : JSON_parse ?t = Normal ?b |- _ =>
               assert (a = b) by congruence; subst b
           | H1 : JSON_parse ?t = Throw ?a, H2 : JSON_parse ?t = Throw ?b |- _ =>
               assert (a = b) by congruence; subst b
           end.
  all: try congruence.
  all: repeat split; try reflexivity; intros Hne; exfalso; apply Hne;
    reflexivity.
Qed.

End GateFacts.

(* ------------------------------------------------------------------ *)
(** ** The round trip through UTF-8 *)

(** X10: decoding the UTF-8 encoding of a JS string gives the string back
    with every unpaired surrogate replaced by U+FFFD; a well-formed string
    comes back unchanged. *)
Theorem utf8_round_trip (s : JSString) :
  code_units s ->
  Buffer_toString_utf8 (Buffer_from_utf8 s) = toWellFormed s /\
  (isWellFormed s = true -> Buffer_toString_utf8 (Buffer_from_utf8 s) = s).
Proof.
  intros Hu.
  assert (H : Buffer_toString_utf8 (Buffer_from_utf8 s) = toWellFormed s)
    by (apply (toWellFormed_round_trip_len (length s)); [lia | exact Hu]).
  split; [exact H|]. intros Hwf. rewrite H. now apply toWellFormed_id.
Qed.

(* ------------------------------------------------------------------ *)
(** ** These properties on sample requests *)

Lemma next_only_after_verification_witness :
  let w := initial_world
             (buffered_request sig_command (sample_stringify command_payload)) in
  headers_present (req w) /\
  request_verifies sample_public_key (req w) /\
  exists v, JSON_parse (Buffer_toString_utf8 (raw_body_of (req w))) = Normal v.
Proof.
  intros w.
  apply (next_only_after_verification sample_public_key sample_gate w
           sample_gate_built).
  intros H. vm_compute in H. discriminate.
Defined.

Lemma forward_excludes_response_witness :
  let w := initial_world
             (buffered_request sig_command (sample_stringify command_payload)) in
  let w' := snd (sample_gate w) in
  nextCalls w' = nextCalls w \/
  (nextCalls w' = S (nextCalls w) /\ res w' = res w /\
   unhandled w' = unhandled w).
Proof.
  intros w.
  exact (forward_excludes_response sample_public_key sample_gate w
           sample_gate_built).
Defined.

Lemma body_replaced_only_on_forward_witness :
  let w := initial_world
             (buffered_request sig_command (sample_stringify command_payload)) in
  let w' := snd (sample_gate w) in
  (nextCalls w' = nextCalls w /\ body (req w') = body (req w)) \/
  (nextCalls w' = S (nextCalls w) /\
   exists v, body (req w') = Some (BodyJS v) /\ truthy v = true /\
             has_type v 1%float = false).
Proof.
  intros w.
  exact (body_replaced_only_on_forward sample_public_key sample_gate w
           sample_gate_built).
Defined.


Lemma parse_only_verified_bytes_witness :
  let w := initial_world
             (buffered_request sig_ping (sample_stringify command_payload)) in
  parsed_texts (calls (snd (sample_gate w))) = [].
Proof.
  intros w.
  destruct (parse_only_verified_bytes sample_public_key sample_gate w
              sample_gate_built) as [_ Hnone].
  apply Hnone. intros [_ H]. vm_compute in H. discriminate.
Defined.

Lemma response_writes_witness :
  let w := initial_world
             (buffered_request sig_ping (sample_stringify command_payload)) in
  let w' := snd (sample_gate w) in
  res w' = res w \/
  res w' = mkResponse 401 (outHeaders (res w)) (Some (js "Invalid headers")) \/
  res w' = mkResponse 401 (outHeaders (res w)) (Some (js "Invalid signature")) \/
  res w' = mkResponse (statusCode (res w))
             (<["Content-Type" := js "application/json"]> (outHeaders (res w)))
             (Some (JSON_stringify (JObject [(js "type", JNumber 1%float)]))).
Proof.
  intros w.
  exact (response_writes sample_public_key sample_gate w sample_gate_built).
Defined.

Lemma falsy_body_reads_stream_witness :
  let w := initial_world
             (mkRequest (sample_headers sig_command) (Some (BodyJS (JString [])))
                command_chunks false) in
  let w' := snd (sample_gate w) in
  raw_body_of (req w) = Buffer_concat command_chunks /\
  pending (req w') = [] /\
  flowing (req w') = true /\
  verifications (calls w') =
  [(sig_command, signed_message sample_timestamp (Buffer_concat command_chunks),
    sample_public_key)].
Proof.
  intros w.
  apply (falsy_body_reads_stream sample_public_key sample_gate w (JString [])
           sample_gate_built).
  - apply sample_headers_present. discriminate.
  - reflexivity.
  - reflexivity.
Defined.

Lemma utf8_round_trip_witness :
  Buffer_toString_utf8 (Buffer_from_utf8 [0x20AC; 0xD83D; 0xDE00; 0xDC00; 0x41])
  = [0x20AC; 0xD83D; 0xDE00; 0xFFFD; 0x41].
Proof.
  apply (utf8_round_trip [0x20AC; 0xD83D; 0xDE00; 0xDC00; 0x41]).
  repeat (constructor; [reflexivity|]). constructor.
Defined.

Lemma string_body_parsed_as_written_witness :
  let text := sample_stringify command_payload in
  let w := initial_world (text_request sig_command text) in
  parsed_texts (calls (snd (sample_gate w))) = [text].
Proof.
  intros text w.
  destruct (string_body_parsed_as_written sample_public_key sample_gate w text
              sample_gate_built) as [_ Hsame].
  - apply sample_headers_present. discriminate.
  - vm_compute. reflexivity.
  - reflexivity.
  - discriminate.
  - repeat (constructor; [reflexivity|]). constructor.
  - apply Hsame. vm_compute. reflexivity.
Defined.

Lemma signed_message_boundary_witness :
  fst (verifyKey (Buffer_from_utf8 (js "null")) sig_null
         (js "17" ++ js "00000000") sample_public_key
         (initial_world unsigned_request)) =
  fst (verifyKey (Buffer_from_utf8 (js "00000000") ++ Buffer_from_utf8 (js "null"))
         sig_null (js "17") sample_public_key (initial_world unsigned_request)).
Proof.
  apply (signed_message_boundary (Buffer_from_utf8 (js "null")) sig_null
           (js "17") (js "00000000") sample_public_key
           (initial_world unsigned_request)).
  reflexivity.
Defined.

Lemma acquisition_path_irrelevant_witness :
  let text := sample_stringify command_payload in
  let w1 := initial_world (buffered_request sig_command text) in
  let w2 := initial_world (streamed_request sig_command command_chunks) in
  let w1' := snd (sample_gate w1) in
  let w2' := snd (sample_gate w2) in
  res w1' = res w2' /\
  nextCalls w1' = nextCalls w2' /\
  unhandled w1' = unhandled w2' /\
  (nextCalls w1' <> nextCalls w1 -> body (req w1') = body (req w2')).
Proof.
  intros text w1 w2.
  apply (acquisition_path_irrelevant sample_public_key sample_gate w1 w2
           sample_gate_built); reflexivity.
Defined.
